(** * mol_parse: from .xyz atom lists to ray-tracer scene lines

    A shallow embedding of [mol_parse.py].  NumPy's float64 scalars and
    Python's floats are IEEE binary64 numbers and are modelled by Rocq's
    primitive floats, which are binary64 as well; a position
    [np.array([x, y, z])] is a record of three floats.  Python strings are
    modelled by [string], read as sequences of code points below 256.
    Exceptions are explicit: a computation that may raise returns a
    [result]. *)

From Stdlib Require Import ZArith List String Ascii Bool Arith Lia Sorted.
From Stdlib Require Import Floats.
From Stdlib Require Import DecimalString Permutation.
Import ListNotations.

Set Warnings "-inexact-float".

Local Open Scope string_scope.

(** ** Python: exceptions *)

Inductive exn : Type :=
| ValueError
| IndexError.

Inductive result (A : Type) : Type :=
| Ok (a : A)
| Raise (e : exn).

Arguments Ok {A} a.
Arguments Raise {A} e.

Definition bind {A B : Type} (m : result A) (k : A -> result B) : result B :=
  match m with
  | Ok a => k a
  | Raise e => Raise e
  end.

Declare Scope py_scope.
Delimit Scope py_scope with py.
Notation "x <- m ;; k" := (bind m (fun x => k))
  (at level 61, m at next level, right associativity) : py_scope.
Notation "' p <- m ;; k" := (bind m (fun x => match x with p => k end))
  (at level 61, p pattern, m at next level, right associativity) : py_scope.

Local Open Scope py_scope.

(** [for x in xs: body], threading the loop's variables [acc]; an
    exception raised by the body leaves the loop. *)
Fixpoint for_each {A S : Type} (xs : list A) (body : A -> S -> result S)
  (acc : S) : result S :=
  match xs with
  | [] => Ok acc
  | x :: xs' => acc' <- body x acc ;; for_each xs' body acc'
  end.

(** [range(a, b)] *)
Definition range (a b : nat) : list nat := seq a (b - a).

(** [xs[i]] for [0 <= i] *)
Definition getitem {A : Type} (xs : list A) (i : nat) : result A :=
  match nth_error xs i with
  | Some x => Ok x
  | None => Raise IndexError
  end.

(** [map(f, xs)], consumed from left to right *)
Fixpoint map_result {A B : Type} (f : A -> result B) (xs : list A)
  : result (list B) :=
  match xs with
  | [] => Ok []
  | x :: xs' => y <- f x ;; ys <- map_result f xs' ;; Ok (y :: ys)
  end.

(** ** Python: strings *)

(** [c.isspace()] on code points below 256 *)
Definition isspace (c : ascii) : bool :=
  let n := nat_of_ascii c in
  (((9 <=? n) && (n <=? 13)) || ((28 <=? n) && (n <=? 32))
   || (n =? 133) || (n =? 160))%nat.

Definition newline : ascii := ascii_of_nat 10.

Fixpoint lstrip (s : list ascii) : list ascii :=
  match s with
  | c :: s' => if isspace c then lstrip s' else s
  | [] => []
  end.

(** [s.strip()] *)
Definition strip (s : string) : string :=
  string_of_list_ascii
    (rev (lstrip (rev (lstrip (list_ascii_of_string s))))).

(** [s.split('\n')]: the pieces between newlines, at least one piece *)
Fixpoint split_newline_aux (cur : list ascii) (s : list ascii) : list string :=
  match s with
  | [] => [string_of_list_ascii (rev cur)]
  | c :: s' =>
      if Ascii.eqb c newline
      then string_of_list_ascii (rev cur) :: split_newline_aux [] s'
      else split_newline_aux (c :: cur) s'
  end.

Definition split_newline (s : string) : list string :=
  split_newline_aux [] (list_ascii_of_string s).

(** [s.split()]: the maximal runs of characters that are not whitespace *)
Fixpoint split_ws_aux (cur : list ascii) (s : list ascii) : list string :=
  match s with
  | [] =>
      match cur with
      | [] => []
      | _ => [string_of_list_ascii (rev cur)]
      end
  | c :: s' =>
      if isspace c
      then match cur with
           | [] => split_ws_aux [] s'
           | _ => string_of_list_ascii (rev cur) :: split_ws_aux [] s'
           end
      else split_ws_aux (c :: cur) s'
  end.

Definition split (s : string) : list string :=
  split_ws_aux [] (list_ascii_of_string s).

(** [sep.join(xs)] *)
Fixpoint join (sep : string) (xs : list string) : string :=
  match xs with
  | [] => EmptyString
  | [x] => x
  | x :: xs' => x ++ sep ++ join sep xs'
  end.

(** [xs[a:b]] for [0 <= a <= b] *)
Definition slice {A : Type} (a b : nat) (xs : list A) : list A :=
  firstn (b - a) (skipn a xs).

(** ** Python: number formatting *)

(** The decimal digits of a natural number *)
Definition digits (n : Z) : string :=
  NilZero.string_of_uint (N.to_uint (Z.to_N n)).

(** [f"{n}"] for an integer *)
Definition format_int (n : Z) : string :=
  if (n <? 0)%Z then "-" ++ digits (- n) else digits n.

Fixpoint zeros (k : nat) : string :=
  match k with
  | O => EmptyString
  | S k' => String "0" (zeros k')
  end.

(** [m * 2^e] rounded to the nearest integer, ties to even *)
Definition round_half_even (m e : Z) : Z :=
  match e with
  | Zneg p =>
      let d := Z.pow_pos 2 p in
      let q := (m / d)%Z in
      let r := (m mod d)%Z in
      match (2 * r ?= d)%Z with
      | Lt => q
      | Gt => (q + 1)%Z
      | Eq => if Z.even q then q else (q + 1)%Z
      end
  | _ => (m * 2 ^ e)%Z
  end.

(** The digits of [n / 10^p] with [p] places after the point *)
Definition fixed_point (p : nat) (n : Z) : string :=
  let ds := digits n in
  let ds := zeros (S p - String.length ds) ++ ds in
  let k := (String.length ds - p)%nat in
  match p with
  | O => ds
  | _ => substring 0 k ds ++ "." ++ substring k p ds
  end.

(** [f"{x:.pf}"] for a float: the exact value of [x], correctly rounded
    to [p] decimal places *)
Definition format_f (p : nat) (x : float) : string :=
  match Prim2SF x with
  | S754_nan => "nan"
  | S754_infinity s => if s then "-inf" else "inf"
  | S754_zero s => (if s then "-" else EmptyString) ++ fixed_point p 0
  | S754_finite s m e =>
      (if s then "-" else EmptyString)
      ++ fixed_point p (round_half_even (Zpos m * 10 ^ Z.of_nat p) e)
  end.

(** ** NumPy: arrays of three float64 *)

Record vec3 : Type := mkvec { vx : float; vy : float; vz : float }.

(** [u + v], [u - v], [v / s]: element by element *)
Definition vadd (u v : vec3) : vec3 :=
  mkvec (vx u + vx v) (vy u + vy v) (vz u + vz v).

Definition vsub (u v : vec3) : vec3 :=
  mkvec (vx u - vx v) (vy u - vy v) (vz u - vz v).

Definition vdiv (v : vec3) (s : float) : vec3 :=
  mkvec (vx v / s) (vy v / s) (vz v / s).

(** [v.dot(v)], summed from the first component on, each product and
    each sum rounded.  NumPy leaves the sum to the BLAS of its build, which
    may fuse a product with a sum and round once; the last bit of the
    result can differ then.  No statement below rests on that bit. *)
Definition dot (u v : vec3) : float :=
  (vx u * vx v + vy u * vy v + vz u * vz v)%float.

(** [np.linalg.norm(v)] is [sqrt(v.dot(v))] on a real one-dimensional
    array *)
Definition linalg_norm (v : vec3) : float := sqrt (dot v v).

(** ** mol_parse.py *)

(** An atom is the tuple [(atom_type, np.array([x, y, z]))]. *)
Definition atom : Type := string * vec3.

Section Parser.

(** Python's builtin [float] applied to a string: the float it denotes,
    or the exception it raises. *)
Variable py_float : string -> result float.

(** The body of the loop over the lines; [atoms] is the list built so
    far. *)
Definition parse_line (line : string) (atoms : list atom)
  : result (list atom) :=
  let parts := split line in
  if (List.length parts <? 4)%nat then Ok atoms
  else
    atom_type <- getitem parts 0 ;;
    coords <- map_result py_float (slice 1 4 parts) ;;
    match coords with
    | [x; y; z] => Ok (app atoms [(atom_type, mkvec x y z)])
    | _ => Raise ValueError
    end.

Definition parse_xyz_data (xyz_data : string) : result (list atom) :=
  let atoms := [] in
  let lines := split_newline (strip xyz_data) in
  for_each lines parse_line atoms.

End Parser.

Definition calculate_distance (point1 point2 : vec3) : float :=
  linalg_norm (vsub point2 point1).

Definition normalize (vector : vec3) : vec3 :=
  let norm := linalg_norm vector in
  if (norm =? 0)%float then vector
  else vdiv vector norm.

Definition determine_bond_threshold (atom_type1 atom_type2 : string) : float :=
  let default_threshold := 1.6%float in
  if ((atom_type1 =? "P") && (atom_type2 =? "O"))
     || ((atom_type1 =? "O") && (atom_type2 =? "P"))
  then 1.8%float
  else default_threshold.

(** The colour chosen for a sphere by the chain of comparisons *)
Definition sphere_color (atom_type : string) : Z * Z * Z :=
  let rgb := (255, 255, 255)%Z in
  if atom_type =? "C" then (128, 128, 128)%Z
  else if atom_type =? "N" then (0, 0, 255)%Z
  else if atom_type =? "O" then (255, 0, 0)%Z
  else if atom_type =? "H" then (255, 255, 255)%Z
  else if atom_type =? "P" then (255, 165, 0)%Z
  else rgb.

(** The body of the loop over the atoms *)
Definition sphere_step (sphere_radius : float) (a : atom)
  (content : list string) : result (list string) :=
  let '(atom_type, position) := a in
  let '(r, g, b) := sphere_color atom_type in
  Ok (app content
      ["sp " ++ format_f 4 (vx position) ++ "," ++ format_f 4 (vy position)
       ++ "," ++ format_f 4 (vz position) ++ " "
       ++ format_f 2 (sphere_radius * 1) ++ " "
       ++ format_int r ++ "," ++ format_int g ++ "," ++ format_int b]).

(** The body of the inner loop over the pairs [i < j] *)
Definition bond_step (cylinder_radius : float) (atoms : list atom)
  (i j : nat) (content : list string) : result (list string) :=
  '(atom_type1, position1) <- getitem atoms i ;;
  '(atom_type2, position2) <- getitem atoms j ;;
  let distance := calculate_distance position1 position2 in
  let bond_threshold := determine_bond_threshold atom_type1 atom_type2 in
  if (distance <? bond_threshold)%float then
    let center := vdiv (vadd position1 position2) 2 in
    let height := distance in
    let direction := normalize (vsub position2 position1) in
    let '(r, g, b) := (200, 200, 200)%Z in
    Ok (app content
        ["cy " ++ format_f 4 (vx center) ++ "," ++ format_f 4 (vy center)
         ++ "," ++ format_f 4 (vz center) ++ " "
         ++ format_f 4 (vx direction) ++ "," ++ format_f 4 (vy direction)
         ++ "," ++ format_f 4 (vz direction) ++ " "
         ++ format_f 2 (cylinder_radius * 2) ++ " " ++ format_f 2 height
         ++ " " ++ format_int r ++ "," ++ format_int g ++ ","
         ++ format_int b])
  else Ok content.

(** The list [content] as it stands before the final join *)
Definition map_lines (atoms : list atom) : result (list string) :=
  let content := [] in
  let content := app content ["A 0.2 255,255,255"] in
  let content := app content ["C -50.0,0.0,20.0 0.0,0.0,1.0 70"] in
  let content := app content ["L -40.0,50.0,0.0 0.6 10,0,255"] in
  let sphere_radius := 1.0%float in
  content <- for_each atoms (sphere_step sphere_radius) content ;;
  let cylinder_radius := 0.2%float in
  for_each (range 0 (List.length atoms))
    (fun i content =>
       for_each (range (i + 1) (List.length atoms))
         (fun j content => bond_step cylinder_radius atoms i j content)
         content)
    content.

Definition generate_map_content (atoms : list atom) : result string :=
  content <- map_lines atoms ;;
  Ok (join (String newline EmptyString) content).

(** ** A decimal instance of the builtin [float]

    [parse_xyz_data] takes the builtin as a parameter.  The instance below
    reads the plain decimal literals, an optional sign and then digits
    with at most one point among them, and rounds their exact value to
    the nearest float, as the builtin does on them;
    every other string raises [ValueError], also those that the builtin
    reads and the instance does not: [inf], [nan], exponents, underscores
    between digits.  It serves to run the parser on concrete texts. *)

Definition digit_value (c : ascii) : option Z :=
  let n := nat_of_ascii c in
  if ((48 <=? n) && (n <=? 57))%nat then Some (Z.of_nat (n - 48)) else None.

(** Reads digits into [mant]; [frac] counts the digits after the point
    once it has been seen, [seen] tells whether a digit was read. *)
Fixpoint read_decimal (s : list ascii) (mant : Z) (frac : option nat)
  (seen : bool) : option (Z * nat) :=
  match s with
  | [] => if seen then Some (mant, match frac with Some k => k | None => O end)
          else None
  | c :: s' =>
      match digit_value c with
      | Some d =>
          read_decimal s' (10 * mant + d)%Z
            (match frac with Some k => Some (S k) | None => None end) true
      | None =>
          match frac with
          | None => if Ascii.eqb c "." then read_decimal s' mant (Some O) seen
                    else None
          | Some _ => None
          end
      end
  end.

Definition nearest_float (neg : bool) (mant : Z) (frac : nat) : float :=
  match mant with
  | Zpos m =>
      SF2Prim (SFdiv prec emax (S754_finite neg m 0)
                 (S754_finite false (Z.to_pos (10 ^ Z.of_nat frac)) 0))
  | _ => SF2Prim (S754_zero neg)
  end.

Definition decimal_float (s : string) : result float :=
  let '(neg, body) :=
    match list_ascii_of_string s with
    | c :: s' =>
        if Ascii.eqb c "-" then (true, s')
        else if Ascii.eqb c "+" then (false, s')
        else (false, c :: s')
    | [] => (false, [])
    end in
  match read_decimal body 0 None false with
  | Some (mant, frac) => Ok (nearest_float neg mant frac)
  | None => Raise ValueError
  end.

(** ** Vocabulary of the statements *)

Definition preamble : list string :=
  ["A 0.2 255,255,255"; "C -50.0,0.0,20.0 0.0,0.0,1.0 70";
   "L -40.0,50.0,0.0 0.6 10,0,255"].

(** The line of the sphere of an atom *)
Definition sphere_line (a : atom) : string :=
  let '(r, g, b) := sphere_color (fst a) in
  "sp " ++ format_f 4 (vx (snd a)) ++ "," ++ format_f 4 (vy (snd a))
  ++ "," ++ format_f 4 (vz (snd a)) ++ " 1.00 "
  ++ format_int r ++ "," ++ format_int g ++ "," ++ format_int b.

(** The line of a cylinder of the given centre, direction and length, with
    the radius 0.40 and the colour 200,200,200 *)
Definition cylinder_text (center direction : vec3) (length : float) : string :=
  "cy " ++ format_f 4 (vx center) ++ "," ++ format_f 4 (vy center)
  ++ "," ++ format_f 4 (vz center) ++ " "
  ++ format_f 4 (vx direction) ++ "," ++ format_f 4 (vy direction)
  ++ "," ++ format_f 4 (vz direction) ++ " 0.40 " ++ format_f 2 length
  ++ " 200,200,200".

Definition midpoint (p q : vec3) : vec3 := vdiv (vadd p q) 2.

(** The line of the cylinder between two positions *)
Definition cylinder_line (position1 position2 : vec3) : string :=
  cylinder_text (midpoint position1 position2)
    (normalize (vsub position2 position1))
    (calculate_distance position1 position2).

(** The test that decides a bond *)
Definition bonded (a b : atom) : bool :=
  (calculate_distance (snd a) (snd b)
   <? determine_bond_threshold (fst a) (fst b))%float.

(** The pairs [(i, j)] in the order of the two nested loops *)
Definition index_pairs (n : nat) : list (nat * nat) :=
  flat_map (fun i => map (pair i) (range (i + 1) n)) (range 0 n).

Definition bonded_at (atoms : list atom) (ij : nat * nat) : bool :=
  match nth_error atoms (fst ij), nth_error atoms (snd ij) with
  | Some a, Some b => bonded a b
  | _, _ => false
  end.

(** What the pair [(i, j)] adds to the output: one line or none *)
Definition pair_lines (atoms : list atom) (ij : nat * nat) : list string :=
  match nth_error atoms (fst ij), nth_error atoms (snd ij) with
  | Some a, Some b =>
      if bonded a b then [cylinder_line (snd a) (snd b)] else []
  | _, _ => []
  end.

(** [line.startswith(p)] *)
Fixpoint startswith (p line : string) : bool :=
  match p, line with
  | EmptyString, _ => true
  | String c p', String d line' => Ascii.eqb c d && startswith p' line'
  | String _ _, EmptyString => false
  end.

Definition is_sphere_line (line : string) : bool := startswith "sp " line.
Definition is_cylinder_line (line : string) : bool := startswith "cy " line.

(** A string without a newline *)
Definition single_line (s : string) : bool :=
  forallb (fun c => negb (Ascii.eqb c newline)) (list_ascii_of_string s).

(** The order of the pair enumeration: by [i], then by [j] *)
Definition pair_lt (p q : nat * nat) : Prop :=
  fst p < fst q \/ (fst p = fst q /\ snd p < snd q).

Definition raises {A : Type} (r : result A) : Prop := exists e, r = Raise e.

(** A line on which [parse_line] calls the builtin on a token it rejects *)
Definition bad_number (py_float : string -> result float) (line : string)
  : Prop :=
  4 <= List.length (split line) /\
  exists k tok, 1 <= k <= 3 /\ nth_error (split line) k = Some tok /\
                raises (py_float tok).

Definition finite_vec (p : vec3) : Prop :=
  is_finite (vx p) = true /\ is_finite (vy p) = true /\
  is_finite (vz p) = true.

(** ** The script at the end of the module *)

Definition fallback_message : string :=
  "No map content was generated. Please check the input data.".

(** What the script hands to [print], as a function of the text
    [xyz_data] that it parses: a string is true when it is not empty. *)
Definition script (py_float : string -> result float) (xyz_data : string)
  : result string :=
  atoms <- parse_xyz_data py_float xyz_data ;;
  map_content <- generate_map_content atoms ;;
  if negb (map_content =? EmptyString) then Ok map_content
  else Ok fallback_message.

(** ** Vocabulary of the further properties *)

(** A line that the parser does not skip *)
Definition long_line (line : string) : bool :=
  negb (List.length (split line) <? 4)%nat.

(** The atom that a line denotes: its first token and the numbers of the
    three tokens that follow *)
Definition atom_of_line (py_float : string -> result float) (line : string)
  : result atom :=
  match split line with
  | t0 :: t1 :: t2 :: t3 :: _ =>
      x <- py_float t1 ;; y <- py_float t2 ;; z <- py_float t3 ;;
      Ok (t0, mkvec x y z)
  | _ => Raise ValueError
  end.

(** A string that holds whitespace only *)
Definition blank (s : string) : bool :=
  forallb isspace (list_ascii_of_string s).

(** A string that can be a token: not empty and without whitespace *)
Definition token (s : string) : bool :=
  negb (s =? EmptyString)
  && forallb (fun c => negb (isspace c)) (list_ascii_of_string s).

(** The characters of the fields of a sphere or cylinder line *)
Definition field_char (c : ascii) : bool :=
  existsb (Ascii.eqb c) (list_ascii_of_string "0123456789.-naif,").

Definition made_of (ok : ascii -> bool) (s : string) : bool :=
  forallb ok (list_ascii_of_string s).

(** The number of bonds of a list of atoms: each atom with those after it *)
Fixpoint bond_count (atoms : list atom) : nat :=
  match atoms with
  | [] => 0
  | a :: atoms' => List.length (filter (bonded a) atoms') + bond_count atoms'
  end.

(** * Proofs *)

(** ** Loops that append *)

Lemma for_each_appends {A B : Type} (f : A -> list B)
  (body : A -> list B -> result (list B)) (xs : list A) :
  (forall x acc, In x xs -> body x acc = Ok (app acc (f x))) ->
  forall acc, for_each xs body acc = Ok (app acc (flat_map f xs)).
Proof.
  induction xs as [|x xs IH]; intros Hbody acc; simpl.
  - now rewrite app_nil_r.
  - rewrite Hbody by now left. simpl.
    rewrite IH by (intros; apply Hbody; now right).
    now rewrite app_assoc.
Qed.

Lemma flat_map_singleton {A B : Type} (f : A -> B) (xs : list A) :
  flat_map (fun x => [f x]) xs = map f xs.
Proof. induction xs; simpl; congruence. Qed.

Lemma flat_map_map {A B C : Type} (g : A -> B) (f : B -> list C)
  (xs : list A) :
  flat_map f (map g xs) = flat_map (fun x => f (g x)) xs.
Proof. induction xs; simpl; congruence. Qed.

Lemma flat_map_nested {A B C : Type} (g : A -> list B) (f : B -> list C)
  (xs : list A) :
  flat_map f (flat_map g xs) = flat_map (fun x => flat_map f (g x)) xs.
Proof.
  induction xs; simpl; [reflexivity|].
  now rewrite flat_map_app, IHxs.
Qed.

Lemma in_range a b i : In i (range a b) <-> a <= i < b.
Proof. unfold range. rewrite in_seq. lia. Qed.

(** ** Constants of the output *)

Lemma sphere_radius_text : format_f 2 (1.0 * 1) = "1.00".
Proof. vm_compute. reflexivity. Qed.

Lemma cylinder_radius_text : format_f 2 (0.2 * 2) = "0.40".
Proof. vm_compute. reflexivity. Qed.

Lemma sphere_step_line a content :
  sphere_step 1.0 a content = Ok (app content [sphere_line a]).
Proof.
  destruct a as [atom_type position]. unfold sphere_step, sphere_line.
  cbn [fst snd].
  destruct (sphere_color atom_type) as [[r g] b].
  now rewrite sphere_radius_text.
Qed.

Lemma bond_step_lines atoms i j content :
  i < List.length atoms -> j < List.length atoms ->
  bond_step 0.2 atoms i j content = Ok (app content (pair_lines atoms (i, j))).
Proof.
  intros Hi Hj. unfold bond_step, pair_lines, getitem, bonded.
  cbn [fst snd].
  destruct (nth_error atoms i) as [[t1 p1]|] eqn:Ei;
    [|apply nth_error_None in Ei; lia].
  destruct (nth_error atoms j) as [[t2 p2]|] eqn:Ej;
    [|apply nth_error_None in Ej; lia].
  cbn [bind fst snd].
  destruct (calculate_distance p1 p2 <? determine_bond_threshold t1 t2)%float.
  - unfold cylinder_line, cylinder_text, midpoint.
    now rewrite cylinder_radius_text.
  - now rewrite app_nil_r.
Qed.

(** The whole list [content], in closed form *)
Lemma map_lines_closed_form atoms :
  map_lines atoms =
  Ok (app preamble
        (app (map sphere_line atoms)
           (flat_map (pair_lines atoms) (index_pairs (List.length atoms))))).
Proof.
  unfold map_lines.
  rewrite (for_each_appends (fun a => [sphere_line a]))
    by (intros; apply sphere_step_line).
  simpl bind. rewrite flat_map_singleton.
  rewrite (for_each_appends
             (fun i => flat_map (fun j => pair_lines atoms (i, j))
                         (range (i + 1) (List.length atoms)))).
  - unfold index_pairs, preamble. rewrite flat_map_nested.
    cbn [app]. do 5 f_equal.
    apply flat_map_ext. intros i. now rewrite flat_map_map.
  - intros i acc Hi. apply in_range in Hi.
    apply for_each_appends. intros j acc' Hj. apply in_range in Hj.
    apply bond_step_lines; lia.
Qed.

(** ** The enumeration of the pairs *)

Lemma in_index_pairs n i j : In (i, j) (index_pairs n) <-> i < j < n.
Proof.
  unfold index_pairs. rewrite in_flat_map. split.
  - intros (i' & Hi & Hj). apply in_map_iff in Hj.
    destruct Hj as (j' & Heq & Hj). inversion Heq; subst.
    apply in_range in Hi, Hj. lia.
  - intros H. exists i. split; [apply in_range; lia|].
    apply in_map. apply in_range. lia.
Qed.

Lemma sorted_app {A : Type} (R : A -> A -> Prop) (l1 l2 : list A) :
  StronglySorted R l1 -> StronglySorted R l2 ->
  (forall x y, In x l1 -> In y l2 -> R x y) ->
  StronglySorted R (app l1 l2).
Proof.
  induction l1 as [|a l1 IH]; intros S1 S2 H12; simpl; [assumption|].
  apply StronglySorted_inv in S1. destruct S1 as [S1 Ha].
  constructor.
  - apply IH; [assumption..|]. intros; apply H12; [now right|assumption].
  - apply Forall_app. split; [assumption|].
    apply Forall_forall. intros y Hy. apply H12; [now left|assumption].
Qed.

Lemma sorted_seq a k : StronglySorted lt (seq a k).
Proof.
  revert a. induction k as [|k IH]; intros a; simpl; constructor.
  - apply IH.
  - apply Forall_forall. intros x Hx. apply in_seq in Hx. lia.
Qed.

Lemma sorted_row i js :
  StronglySorted lt js -> StronglySorted pair_lt (map (pair i) js).
Proof.
  induction 1 as [|j js _ IH Hj]; simpl; constructor; [assumption|].
  apply Forall_forall. intros q Hq. apply in_map_iff in Hq.
  destruct Hq as (j' & <- & Hj'). rewrite Forall_forall in Hj.
  right. simpl. split; [reflexivity|now apply Hj].
Qed.

Lemma sorted_rows (row : nat -> list nat) (rows : list nat) :
  StronglySorted lt rows -> (forall i, StronglySorted lt (row i)) ->
  StronglySorted pair_lt (flat_map (fun i => map (pair i) (row i)) rows).
Proof.
  intros Hrows Hrow. induction Hrows as [|i rows _ IH Hi]; simpl.
  - constructor.
  - apply sorted_app; [now apply sorted_row|assumption|].
    intros p q Hp Hq. apply in_map_iff in Hp. destruct Hp as (j & <- & _).
    apply in_flat_map in Hq. destruct Hq as (i' & Hi' & Hq).
    apply in_map_iff in Hq. destruct Hq as (j' & <- & _).
    rewrite Forall_forall in Hi. left. simpl. now apply Hi.
Qed.

Lemma index_pairs_sorted n : StronglySorted pair_lt (index_pairs n).
Proof.
  unfold index_pairs, range.
  apply sorted_rows; [apply sorted_seq|intros; apply sorted_seq].
Qed.

Lemma sorted_nodup {A : Type} (R : A -> A -> Prop) (l : list A) :
  (forall x, ~ R x x) -> StronglySorted R l -> NoDup l.
Proof.
  intros Hirr. induction 1 as [|a l _ IH Ha]; constructor; [|assumption].
  intros Hin. rewrite Forall_forall in Ha. exact (Hirr a (Ha a Hin)).
Qed.

Lemma index_pairs_nodup n : NoDup (index_pairs n).
Proof.
  apply (sorted_nodup pair_lt); [|apply index_pairs_sorted].
  intros [i j] [H|[_ H]]; simpl in H; lia.
Qed.

Lemma rows_length (n k : nat) :
  k <= n ->
  2 * List.length
        (flat_map (fun i => map (pair i) (range (i + 1) n)) (seq (n - k) k))
  = k * (k - 1).
Proof.
  induction k as [|k IH]; intros Hk; [reflexivity|].
  cbn [seq flat_map]. rewrite length_app, length_map.
  unfold range at 1. rewrite length_seq.
  replace (S (n - S k)) with (n - k) by lia.
  specialize (IH ltac:(lia)). nia.
Qed.

Lemma index_pairs_length n : 2 * List.length (index_pairs n) = n * (n - 1).
Proof.
  unfold index_pairs, range at 2.
  rewrite <- (rows_length n n) by lia. now rewrite Nat.sub_diag, Nat.sub_0_r.
Qed.

(** ** Lines and their first letters *)

Lemma sphere_line_is_sphere a :
  is_sphere_line (sphere_line a) = true /\
  is_cylinder_line (sphere_line a) = false.
Proof.
  unfold sphere_line. destruct (sphere_color (fst a)) as [[r g] b].
  split; reflexivity.
Qed.

Lemma cylinder_text_is_cylinder c d l :
  is_cylinder_line (cylinder_text c d l) = true /\
  is_sphere_line (cylinder_text c d l) = false.
Proof. split; reflexivity. Qed.

Lemma pair_lines_bonded_at atoms ij :
  pair_lines atoms ij =
  if bonded_at atoms ij
  then match nth_error atoms (fst ij), nth_error atoms (snd ij) with
       | Some a, Some b => [cylinder_line (snd a) (snd b)]
       | _, _ => []
       end
  else [].
Proof.
  unfold pair_lines, bonded_at.
  destruct (nth_error atoms (fst ij)), (nth_error atoms (snd ij));
    reflexivity.
Qed.

Lemma filter_none {A : Type} (f : A -> bool) (l : list A) :
  (forall x, In x l -> f x = false) -> filter f l = [].
Proof.
  induction l as [|a l IH]; intros H; simpl; [reflexivity|].
  rewrite (H a) by now left. apply IH. intros; apply H; now right.
Qed.

Lemma filter_all {A : Type} (f : A -> bool) (l : list A) :
  (forall x, In x l -> f x = true) -> filter f l = l.
Proof.
  induction l as [|a l IH]; intros H; simpl; [reflexivity|].
  rewrite (H a) by now left. f_equal. apply IH. intros; apply H; now right.
Qed.

(** Every line of a pair is a cylinder line. *)
Lemma in_pair_lines atoms ij line :
  In line (pair_lines atoms ij) ->
  exists a b, nth_error atoms (fst ij) = Some a /\
              nth_error atoms (snd ij) = Some b /\
              bonded a b = true /\ line = cylinder_line (snd a) (snd b).
Proof.
  unfold pair_lines.
  destruct (nth_error atoms (fst ij)) as [a|]; [|intros []].
  destruct (nth_error atoms (snd ij)) as [b|]; [|intros []].
  destruct (bonded a b) eqn:E; [|intros []].
  intros [<-|[]]. now exists a, b.
Qed.

Lemma pair_lines_length atoms pairs :
  List.length (flat_map (pair_lines atoms) pairs)
  = List.length (filter (bonded_at atoms) pairs).
Proof.
  induction pairs as [|ij pairs IH]; simpl; [reflexivity|].
  rewrite length_app, IH, pair_lines_bonded_at.
  destruct (bonded_at atoms ij) eqn:E; [|reflexivity].
  unfold bonded_at in E.
  destruct (nth_error atoms (fst ij)); [|discriminate].
  destruct (nth_error atoms (snd ij)); [|discriminate]. reflexivity.
Qed.

(** ** Facts on binary64 *)

Lemma eqb_not_ltb (x y : float) :
  (x =? y)%float = true -> (x <? y)%float = false.
Proof.
  rewrite eqb_spec, ltb_spec. unfold SFeqb, SFltb.
  destruct (SFcompare (Prim2SF x) (Prim2SF y)) as [[| |]|];
    intros H; try discriminate H; reflexivity.
Qed.

Lemma finite_cases (x : float) :
  is_finite x = true ->
  (exists s, Prim2SF x = S754_zero s) \/
  (exists s m e, Prim2SF x = S754_finite s m e).
Proof.
  unfold is_finite, is_nan, is_infinity.
  rewrite !eqb_spec, abs_spec.
  destruct (Prim2SF x) as [s|s| |s m e] eqn:E; intros H.
  - left. now exists s.
  - destruct s; discriminate H.
  - discriminate H.
  - right. now exists s, m, e.
Qed.

(** A finite float minus itself is [+0]. *)
Lemma sub_diag (x : float) : is_finite x = true -> (x - x)%float = 0%float.
Proof.
  intros H. rewrite <- (SF2Prim_Prim2SF (x - x)), sub_spec.
  destruct (finite_cases x H) as [(s & E)|(s & m & e & E)]; rewrite E.
  - now destruct s.
  - unfold SF64sub, SFsub. rewrite Z.sub_diag. reflexivity.
Qed.

Lemma vsub_diag (p : vec3) : finite_vec p -> vsub p p = mkvec 0 0 0.
Proof.
  intros (Hx & Hy & Hz). unfold vsub. now rewrite !sub_diag.
Qed.

Lemma zero_below_threshold t1 t2 :
  (0 <? determine_bond_threshold t1 t2)%float = true.
Proof.
  unfold determine_bond_threshold.
  destruct ((t1 =? "P") && (t2 =? "O") || (t1 =? "O") && (t2 =? "P"))%bool;
    reflexivity.
Qed.

(** ** The lines of the text returned

    No line that the generator builds holds a newline, so the pieces of
    the joined text between newlines are the elements of [content]. *)

Lemma list_ascii_app (s1 s2 : string) :
  list_ascii_of_string (s1 ++ s2)
  = app (list_ascii_of_string s1) (list_ascii_of_string s2).
Proof. induction s1; simpl; congruence. Qed.

Lemma single_line_app (s1 s2 : string) :
  single_line s1 = true -> single_line s2 = true ->
  single_line (s1 ++ s2) = true.
Proof.
  unfold single_line. rewrite list_ascii_app, forallb_app.
  now intros -> ->.
Qed.

Lemma single_line_uint (d : Decimal.uint) :
  single_line (NilEmpty.string_of_uint d) = true.
Proof. induction d; simpl; auto. Qed.

Lemma single_line_digits (n : Z) : single_line (digits n) = true.
Proof.
  unfold digits, NilZero.string_of_uint.
  destruct (N.to_uint (Z.to_N n)); try apply single_line_uint. reflexivity.
Qed.

Lemma single_line_format_int (n : Z) : single_line (format_int n) = true.
Proof.
  unfold format_int. destruct (n <? 0)%Z.
  - apply single_line_app; [reflexivity|apply single_line_digits].
  - apply single_line_digits.
Qed.

Lemma single_line_zeros (k : nat) : single_line (zeros k) = true.
Proof. induction k; simpl; auto. Qed.

Lemma single_line_substring (s : string) :
  single_line s = true -> forall n m, single_line (substring n m s) = true.
Proof.
  unfold single_line. induction s as [|c s IH]; intros H n m.
  - destruct n, m; reflexivity.
  - simpl in H. apply andb_prop in H. destruct H as [Hc Hs].
    destruct n as [|n]; [destruct m as [|m]|]; simpl.
    + reflexivity.
    + rewrite Hc. apply (IH Hs 0 m).
    + apply (IH Hs n m).
Qed.

Lemma single_line_fixed_point (p : nat) (n : Z) :
  single_line (fixed_point p n) = true.
Proof.
  assert (H : single_line
                (zeros (S p - String.length (digits n)) ++ digits n) = true)
    by (apply single_line_app;
        [apply single_line_zeros|apply single_line_digits]).
  unfold fixed_point. destruct p; [assumption|].
  repeat apply single_line_app;
    try apply single_line_substring; try assumption; reflexivity.
Qed.

Lemma single_line_format_f (p : nat) (x : float) :
  single_line (format_f p x) = true.
Proof.
  unfold format_f. destruct (Prim2SF x) as [s|s| |s m e];
    try destruct s; try reflexivity;
    (apply single_line_app; [reflexivity|apply single_line_fixed_point]).
Qed.

Lemma single_line_sphere (a : atom) : single_line (sphere_line a) = true.
Proof.
  unfold sphere_line. destruct (sphere_color (fst a)) as [[r g] b].
  repeat apply single_line_app;
    first [apply single_line_format_f|apply single_line_format_int
          |reflexivity].
Qed.

Lemma single_line_cylinder (c d : vec3) (l : float) :
  single_line (cylinder_text c d l) = true.
Proof.
  unfold cylinder_text.
  repeat apply single_line_app;
    first [apply single_line_format_f|reflexivity].
Qed.

Lemma split_newline_run (l : list ascii) :
  forallb (fun c => negb (Ascii.eqb c newline)) l = true ->
  forall cur rest,
    split_newline_aux cur (app l rest)
    = split_newline_aux (app (rev l) cur) rest.
Proof.
  induction l as [|c l IH]; intros H cur rest; [reflexivity|].
  simpl in H. apply andb_prop in H. destruct H as [Hc Hl].
  cbn [app split_newline_aux].
  destruct (Ascii.eqb c newline); [discriminate Hc|].
  rewrite (IH Hl). cbn [rev]. now rewrite <- app_assoc.
Qed.

Lemma split_newline_join (content : list string) :
  content <> [] ->
  Forall (fun l => single_line l = true) content ->
  split_newline (join (String newline EmptyString) content) = content.
Proof.
  intros Hne H. induction H as [|x content Hx H IH]; [now elim Hne|].
  unfold split_newline in *. destruct content as [|y content].
  - cbn [join]. rewrite <- (app_nil_r (list_ascii_of_string x)).
    rewrite (split_newline_run _ Hx). cbn [split_newline_aux].
    now rewrite app_nil_r, rev_involutive, string_of_list_ascii_of_string.
  - change (join (String newline EmptyString) (x :: y :: content))
      with (x ++ String newline (join (String newline EmptyString)
                                   (y :: content))).
    rewrite list_ascii_app. cbn [list_ascii_of_string].
    rewrite (split_newline_run _ Hx). cbn [split_newline_aux].
    rewrite Ascii.eqb_refl, app_nil_r, rev_involutive.
    rewrite string_of_list_ascii_of_string.
    f_equal. apply IH. discriminate.
Qed.

(** The text returned splits back into the lines of the closed form. *)
Lemma generate_map_content_lines (atoms : list atom) :
  exists text,
    generate_map_content atoms = Ok text /\
    split_newline text =
    app preamble
      (app (map sphere_line atoms)
         (flat_map (pair_lines atoms) (index_pairs (List.length atoms)))).
Proof.
  eexists. split.
  - unfold generate_map_content. rewrite map_lines_closed_form. reflexivity.
  - apply split_newline_join; [discriminate|].
    apply Forall_app. split; [repeat constructor|].
    apply Forall_app. split; apply Forall_forall; intros l Hl.
    + apply in_map_iff in Hl. destruct Hl as (a & <- & _).
      apply single_line_sphere.
    + apply in_flat_map in Hl. destruct Hl as (ij & _ & Hl).
      apply in_pair_lines in Hl. destruct Hl as (a & b & _ & _ & _ & ->).
      apply single_line_cylinder.
Qed.

(** The place of a pair in the cylinder part of the output *)
Lemma pair_slot (atoms : list atom) (i j : nat) :
  i < j < List.length atoms ->
  exists before after,
    index_pairs (List.length atoms) = app before ((i, j) :: after) /\
    flat_map (pair_lines atoms) (index_pairs (List.length atoms))
    = app (flat_map (pair_lines atoms) before)
        (app (pair_lines atoms (i, j)) (flat_map (pair_lines atoms) after)).
Proof.
  intros H. apply in_index_pairs in H. apply in_split in H.
  destruct H as (before & after & E). exists before, after.
  split; [assumption|]. rewrite E, flat_map_app. reflexivity.
Qed.

Lemma nth_error_in_range {A : Type} (l : list A) (k : nat) (x : A) :
  nth_error l k = Some x -> k < List.length l.
Proof. intros H. apply nth_error_Some. congruence. Qed.

(** * The bond threshold and the normalisation *)

(** C2: [determine_bond_threshold] returns 1.8 when the two labels are
    "P" and "O" in either order, and 1.6 for every other pair of labels;
    it gives the same result when its arguments are swapped. *)
Theorem determine_bond_threshold_table (a b : string) :
  ((a = "P" /\ b = "O") \/ (a = "O" /\ b = "P") ->
   determine_bond_threshold a b = 1.8%float) /\
  (~ ((a = "P" /\ b = "O") \/ (a = "O" /\ b = "P")) ->
   determine_bond_threshold a b = 1.6%float) /\
  determine_bond_threshold a b = determine_bond_threshold b a.
Proof.
  unfold determine_bond_threshold.
  destruct (String.eqb_spec a "P") as [Ha|Ha],
    (String.eqb_spec b "O") as [Hb|Hb],
    (String.eqb_spec a "O") as [Ha'|Ha'],
    (String.eqb_spec b "P") as [Hb'|Hb'];
    cbn [andb orb]; repeat split; try reflexivity; intros H;
    try (exfalso; intuition congruence).
Qed.

Lemma determine_bond_threshold_table_witness :
  determine_bond_threshold "O" "P" = 1.8%float /\
  determine_bond_threshold "C" "H" = 1.6%float.
Proof.
  split.
  - apply (proj1 (determine_bond_threshold_table "O" "P")).
    right. split; reflexivity.
  - apply (proj1 (proj2 (determine_bond_threshold_table "C" "H"))).
    intros [[H _]|[H _]]; discriminate H.
Defined.

(** C6, as the code has it: [normalize] is a total function, so it
    raises nothing, and its guard is on the computed norm; when the
    norm of [v] compares equal to 0 it returns [v] itself and divides
    nothing, otherwise it returns [v] divided by its norm, a divisor that
    is not 0; the zero vector has norm 0 and is returned as it is. *)
Theorem normalize_guarded (v : vec3) :
  ((linalg_norm v =? 0)%float = true -> normalize v = v) /\
  ((linalg_norm v =? 0)%float = false ->
   normalize v = vdiv v (linalg_norm v)) /\
  (linalg_norm (mkvec 0 0 0) =? 0)%float = true /\
  normalize (mkvec 0 0 0) = mkvec 0 0 0.
Proof.
  unfold normalize. repeat split; try reflexivity; intros H; now rewrite H.
Qed.

Lemma normalize_guarded_witness :
  normalize (mkvec 0 0 0) = mkvec 0 0 0 /\
  normalize (mkvec 3 0 4) = vdiv (mkvec 3 0 4) (linalg_norm (mkvec 3 0 4)).
Proof.
  split.
  - apply (proj1 (normalize_guarded (mkvec 0 0 0))). reflexivity.
  - apply (proj1 (proj2 (normalize_guarded (mkvec 3 0 4)))). reflexivity.
Defined.

(** C6, as stated, fails: the vector (1e-200, 0, 0) is not the zero
    vector, yet its squares underflow and its computed norm compares
    equal to 0; it is returned as it is, not divided by its norm. *)
Lemma normalize_nonzero_undivided :
  mkvec 1e-200 0 0 <> mkvec 0 0 0 /\
  (vx (mkvec 1e-200 0 0) =? 0)%float = false /\
  (linalg_norm (mkvec 1e-200 0 0) =? 0)%float = true /\
  normalize (mkvec 1e-200 0 0) = mkvec 1e-200 0 0 /\
  normalize (mkvec 1e-200 0 0)
  <> vdiv (mkvec 1e-200 0 0) (linalg_norm (mkvec 1e-200 0 0)).
Proof.
  split; [|split; [|split; [|split]]]; try reflexivity.
  - intros H. apply (f_equal (fun v => (vx v =? 0)%float)) in H.
    vm_compute in H. discriminate H.
  - intros H. apply (f_equal (fun v => is_finite (vx v))) in H.
    vm_compute in H. discriminate H.
Qed.

(** * The generator *)

(** C1: the text returned holds, after the preamble and the spheres, what
    the pairs [(i, j)] with [i < j] add, each such pair being met exactly
    once and in its place; a pair adds its cylinder line exactly when the
    distance of its two positions is strictly below the threshold of its
    two labels, and nothing otherwise, in particular nothing when the
    distance equals the threshold. *)
Theorem cylinder_iff_below_threshold (atoms : list atom) :
  exists text,
    generate_map_content atoms = Ok text /\
    map_lines atoms = Ok (split_newline text) /\
    split_newline text =
    app preamble
      (app (map sphere_line atoms)
         (flat_map (pair_lines atoms) (index_pairs (List.length atoms)))) /\
    (forall i j, In (i, j) (index_pairs (List.length atoms))
                 <-> i < j < List.length atoms) /\
    NoDup (index_pairs (List.length atoms)) /\
    forall i j t1 p1 t2 p2,
      nth_error atoms i = Some (t1, p1) ->
      nth_error atoms j = Some (t2, p2) ->
      let d := calculate_distance p1 p2 in
      let t := determine_bond_threshold t1 t2 in
      (i < j ->
       exists before after,
         index_pairs (List.length atoms) = app before ((i, j) :: after) /\
         split_newline text =
         app preamble
           (app (map sphere_line atoms)
              (app (flat_map (pair_lines atoms) before)
                 (app (if (d <? t)%float then [cylinder_line p1 p2] else [])
                    (flat_map (pair_lines atoms) after))))) /\
      (pair_lines atoms (i, j) = [cylinder_line p1 p2]
       <-> (d <? t)%float = true) /\
      (pair_lines atoms (i, j) = [] <-> (d <? t)%float = false) /\
      ((d =? t)%float = true ->
       (d <? t)%float = false /\ pair_lines atoms (i, j) = []).
Proof.
  destruct (generate_map_content_lines atoms) as (text & Htext & Hlines).
  exists text. split; [assumption|].
  split; [rewrite Hlines; apply map_lines_closed_form|].
  split; [assumption|].
  split; [intros; apply in_index_pairs|].
  split; [apply index_pairs_nodup|].
  intros i j t1 p1 t2 p2 Hi Hj d t.
  assert (E : pair_lines atoms (i, j)
              = if (d <? t)%float then [cylinder_line p1 p2] else []).
  { unfold pair_lines, bonded. cbn [fst snd]. now rewrite Hi, Hj. }
  split; [|rewrite E; repeat split].
  - intros Hij.
    destruct (pair_slot atoms i j) as (before & after & Hpairs & Hflat).
    { split; [assumption|]. eapply nth_error_in_range, Hj. }
    exists before, after. split; [assumption|].
    now rewrite Hlines, Hflat, E.
  - destruct (d <? t)%float; [reflexivity|discriminate].
  - now intros ->.
  - destruct (d <? t)%float; [discriminate|reflexivity].
  - now intros ->.
  - now apply eqb_not_ltb.
  - now rewrite (eqb_not_ltb d t H).
Qed.

Lemma cylinder_iff_below_threshold_witness :
  exists text,
    generate_map_content [("O", mkvec 0 0 0); ("O", mkvec 1.6 0 0);
                          ("P", mkvec 1.6 1.7 0)] = Ok text /\
    split_newline text =
    app preamble
      ["sp 0.0000,0.0000,0.0000 1.00 255,0,0";
       "sp 1.6000,0.0000,0.0000 1.00 255,0,0";
       "sp 1.6000,1.7000,0.0000 1.00 255,165,0";
       "cy 1.6000,0.8500,0.0000 0.0000,1.0000,0.0000 0.40 1.70 200,200,200"].
Proof.
  destruct (cylinder_iff_below_threshold
              [("O", mkvec 0 0 0); ("O", mkvec 1.6 0 0);
               ("P", mkvec 1.6 1.7 0)])
    as (text & Htext & _ & Hlines & _).
  exists text. split; [exact Htext|]. rewrite Hlines.
  vm_compute. reflexivity.
Defined.

(** C3: every cylinder line of the text returned comes from a pair
    [i < j] of atoms whose distance is below their threshold, every such
    pair has its line in the text, and this line is that of the cylinder
    whose centre is the midpoint of the two positions, whose direction is
    [normalize (position_j - position_i)], whose radius is printed as
    0.40, the value of 0.2 times 2, whose length is the distance and
    whose colour is 200,200,200. *)
Theorem cylinder_geometry (atoms : list atom) :
  exists text,
    generate_map_content atoms = Ok text /\
    map_lines atoms = Ok (split_newline text) /\
    (forall line,
        In line (split_newline text) ->
        is_cylinder_line line = true ->
        exists i j t1 p1 t2 p2,
          i < j /\
          nth_error atoms i = Some (t1, p1) /\
          nth_error atoms j = Some (t2, p2) /\
          (calculate_distance p1 p2 <? determine_bond_threshold t1 t2)%float
          = true /\
          line = cylinder_line p1 p2) /\
    (forall i j t1 p1 t2 p2,
        i < j ->
        nth_error atoms i = Some (t1, p1) ->
        nth_error atoms j = Some (t2, p2) ->
        (calculate_distance p1 p2 <? determine_bond_threshold t1 t2)%float
        = true ->
        In (cylinder_line p1 p2) (split_newline text)) /\
    (forall p1 p2,
        cylinder_line p1 p2 =
        "cy " ++ format_f 4 (vx (midpoint p1 p2)) ++ ","
        ++ format_f 4 (vy (midpoint p1 p2)) ++ ","
        ++ format_f 4 (vz (midpoint p1 p2)) ++ " "
        ++ format_f 4 (vx (normalize (vsub p2 p1))) ++ ","
        ++ format_f 4 (vy (normalize (vsub p2 p1))) ++ ","
        ++ format_f 4 (vz (normalize (vsub p2 p1))) ++ " "
        ++ format_f 2 0.4 ++ " " ++ format_f 2 (calculate_distance p1 p2)
        ++ " " ++ "200,200,200" /\
        midpoint p1 p2 =
        mkvec ((vx p1 + vx p2) / 2) ((vy p1 + vy p2) / 2)
          ((vz p1 + vz p2) / 2)) /\
    (0.2 * 2)%float = 0.4%float.
Proof.
  destruct (generate_map_content_lines atoms) as (text & Htext & Hlines).
  exists text. split; [assumption|].
  split; [rewrite Hlines; apply map_lines_closed_form|].
  split; [|split; [|split; [split|]; reflexivity]].
  - rewrite Hlines. intros line Hin Hcy.
    apply in_app_or in Hin. destruct Hin as [Hin|Hin].
    { exfalso. destruct Hin as [<-|[<-|[<-|[]]]]; discriminate Hcy. }
    apply in_app_or in Hin. destruct Hin as [Hin|Hin].
    { exfalso. apply in_map_iff in Hin. destruct Hin as (a & <- & _).
      rewrite (proj2 (sphere_line_is_sphere a)) in Hcy. discriminate Hcy. }
    apply in_flat_map in Hin. destruct Hin as ([i j] & Hij & Hin).
    apply in_index_pairs in Hij.
    apply in_pair_lines in Hin.
    destruct Hin as ([t1 p1] & [t2 p2] & Hi & Hj & Hb & ->).
    exists i, j, t1, p1, t2, p2. cbn [fst snd] in *.
    repeat split; try assumption; lia.
  - intros i j t1 p1 t2 p2 Hij Hi Hj Hb. rewrite Hlines.
    apply in_or_app. right. apply in_or_app. right.
    apply in_flat_map. exists (i, j). split.
    + apply in_index_pairs. split; [assumption|].
      eapply nth_error_in_range, Hj.
    + unfold pair_lines, bonded. cbn [fst snd]. rewrite Hi, Hj.
      cbn [fst snd]. rewrite Hb. now left.
Qed.

Lemma cylinder_geometry_witness :
  exists text,
    generate_map_content [("C", mkvec 0 0 0); ("C", mkvec 1 0 0)] = Ok text /\
    In "cy 0.5000,0.0000,0.0000 1.0000,0.0000,0.0000 0.40 1.00 200,200,200"
      (split_newline text).
Proof.
  destruct (cylinder_geometry [("C", mkvec 0 0 0); ("C", mkvec 1 0 0)])
    as (text & Htext & _ & _ & Hin & _).
  exists text. split; [exact Htext|].
  apply (Hin 0 1 "C" (mkvec 0 0 0) "C" (mkvec 1 0 0));
    [lia|reflexivity..].
Defined.

Lemma filter_spheres atoms :
  filter is_sphere_line (map sphere_line atoms) = map sphere_line atoms /\
  filter is_cylinder_line (map sphere_line atoms) = [].
Proof.
  split; [apply filter_all|apply filter_none]; intros l Hl;
    apply in_map_iff in Hl; destruct Hl as (a & <- & _);
    apply sphere_line_is_sphere.
Qed.

Lemma filter_cylinders atoms pairs :
  filter is_cylinder_line (flat_map (pair_lines atoms) pairs)
  = flat_map (pair_lines atoms) pairs /\
  filter is_sphere_line (flat_map (pair_lines atoms) pairs) = [].
Proof.
  split; [apply filter_all|apply filter_none]; intros l Hl;
    apply in_flat_map in Hl; destruct Hl as (ij & _ & Hl);
    apply in_pair_lines in Hl; destruct Hl as (a & b & _ & _ & _ & ->);
    apply cylinder_text_is_cylinder.
Qed.

(** C4: for a list of [n] atoms the text returned has exactly [n] sphere
    lines; its cylinder lines are as many as the pairs [i < j] whose
    distance is strictly below their threshold, hence at most
    [n (n - 1) / 2]. *)
Theorem sphere_and_cylinder_counts (atoms : list atom) :
  exists text,
    generate_map_content atoms = Ok text /\
    map_lines atoms = Ok (split_newline text) /\
    List.length (filter is_sphere_line (split_newline text))
    = List.length atoms /\
    List.length (filter is_cylinder_line (split_newline text))
    = List.length (filter (bonded_at atoms)
                     (index_pairs (List.length atoms))) /\
    List.length (filter is_cylinder_line (split_newline text))
    <= List.length atoms * (List.length atoms - 1) / 2.
Proof.
  destruct (generate_map_content_lines atoms) as (text & Htext & Hlines).
  exists text. rewrite Hlines. split; [assumption|].
  split; [apply map_lines_closed_form|].
  rewrite !filter_app.
  destruct (filter_spheres atoms) as [-> ->].
  destruct (filter_cylinders atoms (index_pairs (List.length atoms)))
    as [-> ->].
  cbn [preamble filter is_sphere_line is_cylinder_line startswith
       Ascii.eqb Bool.eqb andb app].
  rewrite app_nil_r, length_map, pair_lines_length.
  repeat split.
  apply Nat.div_le_lower_bound; [lia|].
  rewrite <- index_pairs_length.
  apply Nat.mul_le_mono_l, filter_length_le.
Qed.

(** C5: the lines of the text returned are the three lines of the
    preamble, then the sphere lines of the atoms in their order, then the
    cylinder lines of the pairs in the order of the enumeration, which
    goes by increasing [i] and, for one [i], by increasing [j]; every line
    of the second part is a sphere line and every line of the third a
    cylinder line. *)
Theorem output_order (atoms : list atom) :
  let spheres := map sphere_line atoms in
  let cylinders :=
    flat_map (pair_lines atoms) (index_pairs (List.length atoms)) in
  exists text,
    generate_map_content atoms = Ok text /\
    split_newline text = app preamble (app spheres cylinders) /\
    map_lines atoms = Ok (app preamble (app spheres cylinders)) /\
    List.length preamble = 3 /\
    StronglySorted pair_lt (index_pairs (List.length atoms)) /\
    Forall (fun l => is_sphere_line l = true /\ is_cylinder_line l = false)
      spheres /\
    Forall (fun l => is_cylinder_line l = true /\ is_sphere_line l = false)
      cylinders.
Proof.
  intros spheres cylinders.
  destruct (generate_map_content_lines atoms) as (text & Htext & Hlines).
  exists text. split; [assumption|]. split; [assumption|].
  split; [apply map_lines_closed_form|].
  split; [reflexivity|].
  split; [apply index_pairs_sorted|].
  split; apply Forall_forall; intros l Hl.
  - apply in_map_iff in Hl. destruct Hl as (a & <- & _).
    apply sphere_line_is_sphere.
  - apply in_flat_map in Hl. destruct Hl as (ij & _ & Hl).
    apply in_pair_lines in Hl. destruct Hl as (a & b & _ & _ & _ & ->).
    apply cylinder_text_is_cylinder.
Qed.

(** C7: on the empty list of atoms the generator returns, without an
    exception, the three lines of the preamble and nothing else. *)
Theorem empty_scene :
  map_lines [] = Ok preamble /\
  generate_map_content [] =
  Ok "A 0.2 255,255,255
C -50.0,0.0,20.0 0.0,0.0,1.0 70
L -40.0,50.0,0.0 0.6 10,0,255".
Proof. split; reflexivity. Qed.

(** C9, as the code has it: two atoms at one position whose coordinates
    are finite, the first before the second in the list, give a cylinder
    line in the text returned, at the place of their pair, with the
    direction 0,0,0 and the length 0. *)
Theorem zero_length_bond (atoms : list atom) (i j : nat) (t1 t2 : string)
  (p : vec3) :
  finite_vec p ->
  i < j ->
  nth_error atoms i = Some (t1, p) ->
  nth_error atoms j = Some (t2, p) ->
  let line :=
    "cy " ++ format_f 4 (vx (midpoint p p)) ++ ","
    ++ format_f 4 (vy (midpoint p p)) ++ ","
    ++ format_f 4 (vz (midpoint p p))
    ++ " 0.0000,0.0000,0.0000 0.40 0.00 200,200,200" in
  calculate_distance p p = 0%float /\
  normalize (vsub p p) = mkvec 0 0 0 /\
  pair_lines atoms (i, j) = [line] /\
  is_cylinder_line line = true /\
  exists text before after,
    generate_map_content atoms = Ok text /\
    In line (split_newline text) /\
    index_pairs (List.length atoms) = app before ((i, j) :: after) /\
    split_newline text =
    app preamble
      (app (map sphere_line atoms)
         (app (flat_map (pair_lines atoms) before)
            (app [line] (flat_map (pair_lines atoms) after)))).
Proof.
  intros Hp Hij Hi Hj line.
  assert (Hd : calculate_distance p p = 0%float).
  { unfold calculate_distance. now rewrite vsub_diag. }
  assert (Hn : normalize (vsub p p) = mkvec 0 0 0).
  { now rewrite vsub_diag. }
  assert (Hline : pair_lines atoms (i, j) = [line]).
  { unfold pair_lines, bonded. cbn [fst snd]. rewrite Hi, Hj. cbn [fst snd].
    rewrite Hd, zero_below_threshold.
    unfold cylinder_line. rewrite Hd, Hn. reflexivity. }
  split; [assumption|]. split; [assumption|]. split; [assumption|].
  split; [reflexivity|].
  destruct (generate_map_content_lines atoms) as (text & Htext & Hlines).
  destruct (pair_slot atoms i j) as (before & after & Hpairs & Hflat).
  { split; [assumption|]. eapply nth_error_in_range, Hj. }
  exists text, before, after. split; [assumption|].
  rewrite Hlines, Hflat, Hline. split; [|split; [assumption|reflexivity]].
  apply in_or_app. right. apply in_or_app. right.
  apply in_or_app. right. now left.
Qed.

Lemma zero_length_bond_witness :
  exists text,
    generate_map_content [("C", mkvec 1 2 3); ("H", mkvec 1 2 3)] = Ok text /\
    In "cy 1.0000,2.0000,3.0000 0.0000,0.0000,0.0000 0.40 0.00 200,200,200"
      (split_newline text).
Proof.
  destruct (zero_length_bond [("C", mkvec 1 2 3); ("H", mkvec 1 2 3)] 0 1
              "C" "H" (mkvec 1 2 3))
    as (_ & _ & _ & _ & text & _ & _ & Htext & Hin & _).
  - repeat split; reflexivity.
  - lia.
  - reflexivity.
  - reflexivity.
  - exists text. split; [exact Htext|exact Hin].
Defined.

(** C9, as stated, fails: two atoms at one position with an infinite
    coordinate are at a distance that is not a number, which compares
    below no threshold, and the text returned has no cylinder line. *)
Lemma zero_length_bond_not_for_infinity :
  is_nan (calculate_distance (mkvec infinity 0 0) (mkvec infinity 0 0))
  = true /\
  bonded ("C", mkvec infinity 0 0) ("C", mkvec infinity 0 0) = false /\
  pair_lines [("C", mkvec infinity 0 0); ("C", mkvec infinity 0 0)] (0, 1)
  = [] /\
  generate_map_content [("C", mkvec infinity 0 0); ("C", mkvec infinity 0 0)]
  = Ok "A 0.2 255,255,255
C -50.0,0.0,20.0 0.0,0.0,1.0 70
L -40.0,50.0,0.0 0.6 10,0,255
sp inf,0.0000,0.0000 1.00 128,128,128
sp inf,0.0000,0.0000 1.00 128,128,128".
Proof. vm_compute. repeat split; reflexivity. Qed.

(** * The parser *)

Section ParserProofs.

Variable py_float : string -> result float.

Lemma parse_line_short line atoms :
  List.length (split line) < 4 -> parse_line py_float line atoms = Ok atoms.
Proof.
  intros H. unfold parse_line.
  now rewrite (proj2 (Nat.ltb_lt _ _) H).
Qed.

Lemma parse_line_long line atoms t0 t1 t2 t3 rest :
  split line = t0 :: t1 :: t2 :: t3 :: rest ->
  parse_line py_float line atoms =
  (x <- py_float t1 ;; y <- py_float t2 ;; z <- py_float t3 ;;
   Ok (app atoms [(t0, mkvec x y z)])).
Proof.
  intros H. unfold parse_line. rewrite H.
  cbn [List.length Nat.ltb Nat.leb getitem nth_error bind slice
       Nat.sub skipn firstn map_result].
  destruct (py_float t1) as [x|e1]; [|reflexivity].
  destruct (py_float t2) as [y|e2]; [|reflexivity].
  destruct (py_float t3) as [z|e3]; reflexivity.
Qed.

Lemma parse_line_raises line atoms :
  raises (parse_line py_float line atoms) <-> bad_number py_float line.
Proof.
  unfold bad_number.
  destruct (split line) as [|t0 [|t1 [|t2 [|t3 rest]]]] eqn:E;
    try (rewrite parse_line_short by (rewrite E; simpl; lia);
         split; [intros [e H]; discriminate H|simpl; intros [H _]; lia]).
  rewrite (parse_line_long line atoms t0 t1 t2 t3 rest E). split.
  - intros [e H]. split; [simpl; lia|].
    destruct (py_float t1) as [x|e1] eqn:E1;
      [|exists 1, t1; repeat split; [lia..|now exists e1]].
    destruct (py_float t2) as [y|e2] eqn:E2;
      [|exists 2, t2; repeat split; [lia..|now exists e2]].
    destruct (py_float t3) as [z|e3] eqn:E3;
      [discriminate H|exists 3, t3; repeat split; [lia..|now exists e3]].
  - intros (_ & k & tok & Hk & Htok & e & He).
    assert (Hcases : k = 1 \/ k = 2 \/ k = 3) by lia.
    destruct Hcases as [ -> | [ -> | -> ] ]; simpl in Htok;
      injection Htok as Htok; subst tok; rewrite ?He;
      destruct (py_float t1); try (eexists; reflexivity);
      destruct (py_float t2); try (eexists; reflexivity);
      rewrite ?He; eexists; reflexivity.
Qed.

Lemma parse_lines_raise lines atoms :
  raises (for_each lines (parse_line py_float) atoms) <->
  exists line, In line lines /\ bad_number py_float line.
Proof.
  revert atoms. induction lines as [|l lines IH]; intros atoms.
  - split; [intros [e H]; discriminate H|intros (l & [] & _)].
  - cbn [for_each].
    destruct (parse_line py_float l atoms) as [atoms'|e] eqn:E; cbn [bind].
    + rewrite IH. split.
      * intros (l' & Hin & Hbad). exists l'. split; [now right|assumption].
      * intros (l' & [Heq|Hin] & Hbad); [subst l'|now exists l'].
        apply (parse_line_raises l atoms) in Hbad.
        destruct Hbad as [e He]. congruence.
    + split; [|intros _; now exists e].
      intros _. exists l. split; [now left|].
      apply (parse_line_raises l atoms). now exists e.
Qed.

Lemma parse_lines_drop_short lines atoms :
  for_each lines (parse_line py_float) atoms =
  for_each (filter (fun l => negb (List.length (split l) <? 4)%nat) lines)
    (parse_line py_float) atoms.
Proof.
  revert atoms. induction lines as [|l lines IH]; intros atoms;
    [reflexivity|].
  cbn [for_each filter].
  destruct (List.length (split l) <? 4)%nat eqn:E; cbn [negb for_each].
  - apply Nat.ltb_lt in E. rewrite parse_line_short by assumption.
    apply IH.
  - destruct (parse_line py_float l atoms); cbn [bind];
      [apply IH|reflexivity].
Qed.

End ParserProofs.

(** C8: a line with fewer than 4 tokens leaves the list of atoms as it is
    and the loop goes on with the next line, so the parser's result is
    the one it has on the text without these lines; the parser raises
    exactly when, on some line with at least 4 tokens, the builtin
    [float] raises on the second, third or fourth token. *)
Theorem short_lines_skipped_bad_numbers_raise
  (py_float : string -> result float) (xyz_data : string) :
  (forall line rest atoms,
      List.length (split line) < 4 ->
      parse_line py_float line atoms = Ok atoms /\
      for_each (line :: rest) (parse_line py_float) atoms
      = for_each rest (parse_line py_float) atoms) /\
  parse_xyz_data py_float xyz_data
  = for_each
      (filter (fun l => negb (List.length (split l) <? 4)%nat)
         (split_newline (strip xyz_data)))
      (parse_line py_float) [] /\
  (raises (parse_xyz_data py_float xyz_data) <->
   exists line, In line (split_newline (strip xyz_data)) /\
                bad_number py_float line).
Proof.
  split; [|split].
  - intros line rest atoms H. cbn [for_each].
    now rewrite parse_line_short by assumption.
  - apply parse_lines_drop_short.
  - apply parse_lines_raise.
Qed.

Lemma short_lines_skipped_bad_numbers_raise_witness :
  parse_line decimal_float "He 0.5 1.5" [("C", mkvec 1 2 3)]
  = Ok [("C", mkvec 1 2 3)] /\
  raises (parse_xyz_data decimal_float "C 1 2 3
short line
O 1.5 x 2.5").
Proof.
  split.
  - apply (proj1 (short_lines_skipped_bad_numbers_raise decimal_float "C")
             "He 0.5 1.5" [] [("C", mkvec 1 2 3)]).
    vm_compute. lia.
  - apply (short_lines_skipped_bad_numbers_raise decimal_float).
    exists "O 1.5 x 2.5". split; [vm_compute; tauto|].
    split; [vm_compute; lia|].
    exists 2, "x". repeat split; [lia..|].
    exists ValueError. reflexivity.
Defined.

Lemma map_result_length {A B : Type} (f : A -> result B) (xs : list A)
  (ys : list B) :
  map_result f xs = Ok ys -> List.length ys = List.length xs.
Proof.
  revert ys. induction xs as [|x xs IH]; intros ys; cbn [map_result].
  - now intros [= <-].
  - destruct (f x) as [y|e]; cbn [bind]; [|discriminate].
    destruct (map_result f xs) as [ys'|e]; cbn [bind]; [|discriminate].
    intros [= <-]. simpl. f_equal. now apply IH.
Qed.

Lemma parse_line_atom (py_float : string -> result float) (line : string)
  (atoms : list atom) :
  long_line line = true ->
  parse_line py_float line atoms =
  (a <- atom_of_line py_float line ;; Ok (app atoms [a])).
Proof.
  unfold long_line, atom_of_line. intros H.
  destruct (split line) as [|t0 [|t1 [|t2 [|t3 rest]]]] eqn:E;
    try discriminate H.
  rewrite (parse_line_long py_float line atoms t0 t1 t2 t3 rest E).
  destruct (py_float t1); [|reflexivity].
  destruct (py_float t2); [|reflexivity].
  destruct (py_float t3); reflexivity.
Qed.

Lemma parse_long_lines (py_float : string -> result float)
  (lines : list string) :
  Forall (fun l => long_line l = true) lines ->
  forall atoms,
    for_each lines (parse_line py_float) atoms =
    (more <- map_result (atom_of_line py_float) lines ;;
     Ok (app atoms more)).
Proof.
  induction 1 as [|l lines Hl _ IH]; intros atoms;
    cbn [for_each map_result bind].
  - now rewrite app_nil_r.
  - rewrite (parse_line_atom py_float l atoms Hl).
    destruct (atom_of_line py_float l) as [a|e]; cbn [bind]; [|reflexivity].
    rewrite IH.
    destruct (map_result (atom_of_line py_float) lines); cbn [bind];
      [|reflexivity].
    now rewrite <- app_assoc.
Qed.

Lemma parse_xyz_data_map (py_float : string -> result float)
  (xyz_data : string) :
  parse_xyz_data py_float xyz_data =
  map_result (atom_of_line py_float)
    (filter long_line (split_newline (strip xyz_data))).
Proof.
  unfold parse_xyz_data. rewrite parse_lines_drop_short.
  change (fun l => negb (List.length (split l) <? 4)%nat) with long_line.
  rewrite parse_long_lines
    by (apply Forall_forall; intros l Hl; now apply filter_In in Hl).
  now destruct (map_result _ _).
Qed.

Lemma map_result_app {A B : Type} (f : A -> result B) (l1 l2 : list A)
  (x : A) :
  map_result f (app l1 (x :: l2)) =
  (before <- map_result f l1 ;; y <- f x ;; after <- map_result f l2 ;;
   Ok (app before (y :: after))).
Proof.
  induction l1 as [|a l1 IH]; cbn [app map_result bind].
  - destruct (f x); cbn [bind]; [|reflexivity].
    now destruct (map_result f l2).
  - destruct (f a) as [b|e]; cbn [bind]; [|reflexivity].
    rewrite IH. destruct (map_result f l1); cbn [bind]; [|reflexivity].
    destruct (f x); cbn [bind]; [|reflexivity].
    now destruct (map_result f l2).
Qed.

(** C10: a line of the text with more than 4 tokens is read as an atom:
    the parser calls [float] on its second, third and fourth token only,
    after the lines before it and before the lines after it, and the list
    it returns holds, at the place of the line, the atom of the first
    token and of these three numbers; the tokens after the fourth play
    no part, numeric or not. *)
Theorem extra_tokens_ignored (py_float : string -> result float)
  (xyz_data : string) (pre post : list string) (line : string)
  (t0 t1 t2 t3 t4 : string) (extra : list string) :
  split_newline (strip xyz_data) = app pre (line :: post) ->
  split line = t0 :: t1 :: t2 :: t3 :: t4 :: extra ->
  parse_xyz_data py_float xyz_data =
  (before <- map_result (atom_of_line py_float) (filter long_line pre) ;;
   x <- py_float t1 ;; y <- py_float t2 ;; z <- py_float t3 ;;
   after <- map_result (atom_of_line py_float) (filter long_line post) ;;
   Ok (app before ((t0, mkvec x y z) :: after))) /\
  (forall atoms,
      parse_xyz_data py_float xyz_data = Ok atoms ->
      exists before x y z after,
        py_float t1 = Ok x /\ py_float t2 = Ok y /\ py_float t3 = Ok z /\
        List.length before = List.length (filter long_line pre) /\
        atoms = app before ((t0, mkvec x y z) :: after)) /\
  (forall current,
      parse_line py_float line current =
      (x <- py_float t1 ;; y <- py_float t2 ;; z <- py_float t3 ;;
       Ok (app current [(t0, mkvec x y z)]))).
Proof.
  intros Hlines Hline.
  assert (Hlong : long_line line = true)
    by (unfold long_line; now rewrite Hline).
  assert (Hatom : atom_of_line py_float line =
                  (x <- py_float t1 ;; y <- py_float t2 ;;
                   z <- py_float t3 ;; Ok (t0, mkvec x y z)))
    by (unfold atom_of_line; now rewrite Hline).
  assert (E : parse_xyz_data py_float xyz_data =
              (before <- map_result (atom_of_line py_float)
                           (filter long_line pre) ;;
               x <- py_float t1 ;; y <- py_float t2 ;; z <- py_float t3 ;;
               after <- map_result (atom_of_line py_float)
                          (filter long_line post) ;;
               Ok (app before ((t0, mkvec x y z) :: after)))).
  { rewrite parse_xyz_data_map, Hlines, filter_app. cbn [filter].
    rewrite Hlong, map_result_app, Hatom.
    destruct (map_result _ (filter long_line pre)); cbn [bind];
      [|reflexivity].
    destruct (py_float t1); cbn [bind]; [|reflexivity].
    destruct (py_float t2); cbn [bind]; [|reflexivity].
    destruct (py_float t3); reflexivity. }
  split; [exact E|]. split.
  - intros atoms H. rewrite E in H.
    destruct (map_result _ (filter long_line pre)) as [before|e] eqn:Eb;
      cbn [bind] in H; [|discriminate H].
    destruct (py_float t1) as [x|e]; cbn [bind] in H; [|discriminate H].
    destruct (py_float t2) as [y|e]; cbn [bind] in H; [|discriminate H].
    destruct (py_float t3) as [z|e]; cbn [bind] in H; [|discriminate H].
    destruct (map_result _ (filter long_line post)) as [after|e];
      cbn [bind] in H; [|discriminate H].
    injection H as <-. exists before, x, y, z, after.
    repeat split. now apply map_result_length in Eb.
  - intros current.
    apply (parse_line_long py_float line current _ _ _ _ _ Hline).
Qed.

Lemma extra_tokens_ignored_witness :
  decimal_float "bond" = Raise ValueError /\
  parse_xyz_data decimal_float "C 0 0 0
H 1 2.5 -3 bond 7
O 1 1 1"
  = Ok [("C", mkvec 0 0 0); ("H", mkvec 1 2.5 (-3)); ("O", mkvec 1 1 1)].
Proof.
  split; [reflexivity|].
  rewrite (proj1 (extra_tokens_ignored decimal_float "C 0 0 0
H 1 2.5 -3 bond 7
O 1 1 1" ["C 0 0 0"] ["O 1 1 1"] "H 1 2.5 -3 bond 7"
                    "H" "1" "2.5" "-3" "bond" ["7"] eq_refl eq_refl)).
  vm_compute. reflexivity.
Defined.

(** * Further properties *)

(** ** The distance *)

Lemma prim_of_spec (x y : float) : Prim2SF x = Prim2SF y -> x = y.
Proof.
  intros H. rewrite <- (SF2Prim_Prim2SF x), <- (SF2Prim_Prim2SF y).
  now rewrite H.
Qed.

(** The sign given to the rounding shows in the sign of its result only. *)
Lemma round_aux_sign (s s' : bool) (m e : Z) (l : location) :
  SFabs (binary_round_aux prec emax s m e l)
  = SFabs (binary_round_aux prec emax s' m e l).
Proof.
  unfold binary_round_aux.
  destruct (shr_fexp prec emax m e l) as [mrs e1].
  destruct (shr_fexp prec emax _ e1 loc_Exact) as [mrs2 e2].
  destruct (shr_m mrs2); try reflexivity.
  destruct (e2 <=? emax - prec)%Z; reflexivity.
Qed.

Lemma round_sign (s s' : bool) (m : positive) (e : Z) :
  SFabs (binary_round prec emax s m e) = SFabs (binary_round prec emax s' m e).
Proof.
  unfold binary_round. destruct (shl_align m e _) as [mz ez].
  apply round_aux_sign.
Qed.

Lemma normalize_opp (m e : Z) :
  SFabs (binary_normalize prec emax (- m) e false)
  = SFabs (binary_normalize prec emax m e false).
Proof. destruct m; simpl; [reflexivity|apply round_sign..]. Qed.

(** Swapping the operands of a subtraction changes the sign at most. *)
Lemma SFsub_swap (x y : spec_float) :
  SFabs (SFsub prec emax x y) = SFabs (SFsub prec emax y x).
Proof.
  destruct x as [sx|sx| |sx mx ex], y as [sy|sy| |sy my ey];
    try (destruct sx); try (destruct sy); try reflexivity.
  all: unfold SFsub; rewrite (Z.min_comm ey ex);
    rewrite <- normalize_opp; f_equal; f_equal; unfold cond_Zopp; lia.
Qed.

(** A square depends on the sign of its argument in no way. *)
Lemma SFmul_square (x y : spec_float) :
  SFabs x = SFabs y -> SFmul prec emax x x = SFmul prec emax y y.
Proof.
  destruct x as [sx|sx| |sx mx ex], y as [sy|sy| |sy my ey];
    intros H; try discriminate H; try reflexivity.
  - now destruct sx, sy.
  - now destruct sx, sy.
  - injection H as -> ->. unfold SFmul. now destruct sx, sy.
Qed.

Lemma square_sub_swap (x y : float) :
  ((x - y) * (x - y))%float = ((y - x) * (y - x))%float.
Proof.
  apply prim_of_spec. rewrite !mul_spec. apply SFmul_square.
  rewrite !sub_spec. apply SFsub_swap.
Qed.

Lemma calculate_distance_sym (a b : vec3) :
  calculate_distance a b = calculate_distance b a.
Proof.
  unfold calculate_distance, linalg_norm, dot, vsub. cbn [vx vy vz].
  now rewrite (square_sub_swap (vx b)), (square_sub_swap (vy b)),
    (square_sub_swap (vz b)).
Qed.

Lemma sqrt_not_negative (x : float) : (sqrt x <? 0)%float = false.
Proof.
  rewrite ltb_spec, sqrt_spec. unfold SF64sqrt, SFsqrt.
  destruct (Prim2SF x) as [s|s| |s m e]; try destruct s; try reflexivity.
  destruct (SFsqrt_core_binary prec emax (Z.pos m) e) as [[mz ez] lz].
  unfold binary_round_aux.
  destruct (shr_fexp prec emax mz ez lz) as [mrs e1].
  destruct (shr_fexp prec emax _ e1 loc_Exact) as [mrs2 e2].
  destruct (shr_m mrs2); try reflexivity.
  destruct (e2 <=? emax - prec)%Z; reflexivity.
Qed.

Lemma not_finite_cases (x : float) :
  is_finite x = false ->
  Prim2SF x = S754_nan \/ exists s, Prim2SF x = S754_infinity s.
Proof.
  unfold is_finite, is_nan, is_infinity. rewrite !eqb_spec, abs_spec.
  destruct (Prim2SF x) as [s|s| |s m e] eqn:E; intros H.
  - discriminate H.
  - right. now exists s.
  - now left.
  - exfalso. unfold SFeqb, SFcompare, SFabs in H.
    rewrite Z.compare_refl, Pos.compare_cont_refl in H.
    destruct s; discriminate H.
Qed.

(** What is not finite minus itself is not a number. *)
Lemma sub_diag_nan (x : float) : is_finite x = false -> (x - x)%float = nan.
Proof.
  intros H. apply prim_of_spec. rewrite sub_spec.
  destruct (not_finite_cases x H) as [E|[s E]]; rewrite E;
    [|destruct s]; reflexivity.
Qed.

Lemma mul_nan : (nan * nan)%float = nan.
Proof. reflexivity. Qed.

Lemma add_nan_l (y : float) : (nan + y)%float = nan.
Proof. apply prim_of_spec. rewrite add_spec. reflexivity. Qed.

Lemma add_nan_r (x : float) : (x + nan)%float = nan.
Proof.
  apply prim_of_spec. rewrite add_spec.
  now destruct (Prim2SF x) as [s|s| |s m e].
Qed.

Lemma determine_bond_threshold_sym (a b : string) :
  determine_bond_threshold a b = determine_bond_threshold b a.
Proof.
  unfold determine_bond_threshold.
  now rewrite orb_comm, (andb_comm (a =? "P")), (andb_comm (a =? "O")).
Qed.

Lemma bonded_sym (a b : atom) : bonded a b = bonded b a.
Proof.
  unfold bonded.
  now rewrite calculate_distance_sym, determine_bond_threshold_sym.
Qed.

(** X1: the distance of two points is the same in both orders, as a
    float and in every case, and so is the test that decides a bond. *)
Theorem distance_and_bond_symmetric (a b : atom) :
  calculate_distance (snd a) (snd b) = calculate_distance (snd b) (snd a) /\
  bonded a b = bonded b a.
Proof. split; [apply calculate_distance_sym|apply bonded_sym]. Qed.

(** X2: a distance is never below 0: it is not a number, or 0 compares
    below it or equal to it. *)
Theorem distance_not_negative (a b : vec3) :
  (calculate_distance a b <? 0)%float = false /\
  (is_nan (calculate_distance a b) = true \/
   (0 <=? calculate_distance a b)%float = true).
Proof.
  split; [apply sqrt_not_negative|].
  pose proof (sqrt_not_negative (dot (vsub b a) (vsub b a))) as H.
  unfold calculate_distance, linalg_norm, is_nan.
  revert H. rewrite ltb_spec, leb_spec, eqb_spec.
  unfold SFltb, SFleb, SFeqb.
  destruct (Prim2SF (sqrt (dot (vsub b a) (vsub b a)))) as [s|s| |s m e];
    try destruct s; simpl; intros H; try discriminate H; auto.
Qed.

(** X3: the distance of a point to itself is 0 when its three
    coordinates are finite, and is not a number otherwise. *)
Theorem distance_to_itself (p : vec3) :
  (finite_vec p -> calculate_distance p p = 0%float) /\
  (~ finite_vec p -> calculate_distance p p = nan).
Proof.
  split.
  - intros H. unfold calculate_distance. now rewrite vsub_diag.
  - intros H.
    unfold calculate_distance, linalg_norm, dot, vsub, finite_vec in *.
    cbn [vx vy vz].
    destruct (is_finite (vx p)) eqn:Ex.
    + destruct (is_finite (vy p)) eqn:Ey.
      * destruct (is_finite (vz p)) eqn:Ez; [tauto|].
        now rewrite (sub_diag_nan _ Ez), mul_nan, add_nan_r.
      * now rewrite (sub_diag_nan _ Ey), mul_nan, add_nan_r, add_nan_l.
    + now rewrite (sub_diag_nan _ Ex), mul_nan, !add_nan_l.
Qed.

Lemma distance_to_itself_witness :
  calculate_distance (mkvec 1 (-2.5) 3) (mkvec 1 (-2.5) 3) = 0%float /\
  calculate_distance (mkvec 1 infinity 3) (mkvec 1 infinity 3) = nan.
Proof.
  split.
  - apply (proj1 (distance_to_itself (mkvec 1 (-2.5) 3))).
    repeat split; reflexivity.
  - apply (proj2 (distance_to_itself (mkvec 1 infinity 3))).
    intros (_ & H & _). discriminate H.
Defined.

(** ** The spheres *)

(** X4: the sphere of the atom of index [k] is the line of index [3 + k]
    of the text returned; it carries the position of the atom with 4
    decimals, the radius 1.00 and the colour of the label: grey for "C",
    blue for "N", red for "O", orange for "P", and white for every other
    label, "H" among them. *)
Theorem sphere_of_atom (atoms : list atom) (k : nat) (t : string) (p : vec3) :
  nth_error atoms k = Some (t, p) ->
  exists text rgb,
    generate_map_content atoms = Ok text /\
    nth_error (split_newline text) (3 + k)
    = Some ("sp " ++ format_f 4 (vx p) ++ "," ++ format_f 4 (vy p) ++ ","
            ++ format_f 4 (vz p) ++ " 1.00 " ++ rgb) /\
    (t = "C" -> rgb = "128,128,128") /\
    (t = "N" -> rgb = "0,0,255") /\
    (t = "O" -> rgb = "255,0,0") /\
    (t = "P" -> rgb = "255,165,0") /\
    (t <> "C" -> t <> "N" -> t <> "O" -> t <> "P" -> rgb = "255,255,255").
Proof.
  intros Hk.
  destruct (generate_map_content_lines atoms) as (text & Htext & Hlines).
  exists text.
  exists (let '(r, g, b) := sphere_color t in
          format_int r ++ "," ++ format_int g ++ "," ++ format_int b).
  split; [assumption|]. split.
  - rewrite Hlines.
    change (nth_error (app preamble ?l) (3 + k)) with (nth_error l k).
    rewrite nth_error_app1
      by (rewrite length_map; apply nth_error_Some; congruence).
    rewrite (map_nth_error sphere_line k atoms Hk).
    unfold sphere_line. cbn [fst snd].
    now destruct (sphere_color t) as [[r g] b].
  - unfold sphere_color.
    destruct (String.eqb_spec t "C") as [->|HC]; [repeat split; congruence|].
    destruct (String.eqb_spec t "N") as [->|HN]; [repeat split; congruence|].
    destruct (String.eqb_spec t "O") as [->|HO]; [repeat split; congruence|].
    destruct (String.eqb_spec t "H") as [->|HH]; [repeat split; congruence|].
    destruct (String.eqb_spec t "P") as [->|HP]; repeat split; congruence.
Qed.

Lemma sphere_of_atom_witness :
  exists text rgb,
    generate_map_content [("O", mkvec 0 0 0); ("Cl", mkvec 0.5 (-1) 2)]
    = Ok text /\
    nth_error (split_newline text) 4
    = Some ("sp 0.5000,-1.0000,2.0000 1.00 " ++ rgb) /\
    rgb = "255,255,255".
Proof.
  destruct (sphere_of_atom [("O", mkvec 0 0 0); ("Cl", mkvec 0.5 (-1) 2)]
              1 "Cl" (mkvec 0.5 (-1) 2) eq_refl)
    as (text & rgb & Htext & Hline & _ & _ & _ & _ & Hrgb).
  exists text, rgb. repeat split; try assumption.
  apply Hrgb; discriminate.
Defined.

(** ** The parser, line by line *)

(** X5: the parser returns what reading one atom from each line of at
    least 4 tokens returns, these lines being taken in their order in the
    text: the atoms come in the order of their lines, their labels are the
    first tokens, and the exception raised, when there is one, is that of
    the first call of [float] that fails. A list returned has as many atoms
    as the text has such lines. *)
Theorem parse_xyz_data_line_by_line (py_float : string -> result float)
  (xyz_data : string) :
  parse_xyz_data py_float xyz_data =
  map_result (atom_of_line py_float)
    (filter long_line (split_newline (strip xyz_data))) /\
  forall atoms,
    parse_xyz_data py_float xyz_data = Ok atoms ->
    List.length atoms
    = List.length (filter long_line (split_newline (strip xyz_data))) /\
    map fst atoms
    = map (fun l => hd EmptyString (split l))
        (filter long_line (split_newline (strip xyz_data))).
Proof.
  split; [apply parse_xyz_data_map|].
  rewrite parse_xyz_data_map.
  generalize (filter long_line (split_newline (strip xyz_data))).
  intros lines atoms H. split; [now apply map_result_length in H|].
  revert atoms H. induction lines as [|l lines IH]; intros atoms;
    cbn [map_result].
  - now intros [= <-].
  - destruct (atom_of_line py_float l) as [a|e] eqn:Ea; cbn [bind];
      [|discriminate].
    destruct (map_result (atom_of_line py_float) lines) as [more|e];
      cbn [bind]; [|discriminate].
    intros [= <-]. cbn [map]. f_equal; [|now apply IH].
    unfold atom_of_line in Ea.
    destruct (split l) as [|t0 [|t1 [|t2 [|t3 rest]]]]; try discriminate Ea.
    destruct (py_float t1); [|discriminate Ea].
    destruct (py_float t2); [|discriminate Ea].
    destruct (py_float t3); [|discriminate Ea].
    now injection Ea as <-.
Qed.

Lemma parse_xyz_data_line_by_line_witness :
  parse_xyz_data decimal_float "2
C 0 0 0
H 0 0 1.1 # hydrogen"
  = Ok [("C", mkvec 0 0 0); ("H", mkvec 0 0 1.1)] /\
  List.length [("C", mkvec 0 0 0); ("H", mkvec 0 0 1.1)] = 2.
Proof.
  split.
  - rewrite (proj1 (parse_xyz_data_line_by_line decimal_float _)).
    vm_compute. reflexivity.
  - reflexivity.
Defined.

Lemma lstrip_blank (l : list ascii) : forallb isspace l = true -> lstrip l = [].
Proof.
  induction l as [|c l IH]; [reflexivity|].
  cbn [forallb lstrip]. intros H. apply andb_prop in H.
  destruct H as [-> H]. now apply IH.
Qed.

(** X6: on a text that holds whitespace only, the empty text among them,
    the parser returns the empty list, whatever [float] does. *)
Theorem parse_blank_text (py_float : string -> result float)
  (xyz_data : string) :
  blank xyz_data = true -> parse_xyz_data py_float xyz_data = Ok [].
Proof.
  unfold blank, parse_xyz_data, strip. intros H.
  now rewrite (lstrip_blank _ H).
Qed.

Lemma parse_blank_text_witness :
  parse_xyz_data decimal_float "

  " = Ok [].
Proof. apply parse_blank_text. reflexivity. Defined.

(** ** The script *)

Lemma sphere_line_count (atoms : list atom) (text : string) :
  generate_map_content atoms = Ok text ->
  startswith "A 0.2 255,255,255" text = true /\
  List.length (filter is_sphere_line (split_newline text))
  = List.length atoms.
Proof.
  intros H.
  destruct (generate_map_content_lines atoms) as (text' & Htext & Hlines).
  assert (text' = text) by congruence. subst text'. split.
  - revert H. unfold generate_map_content.
    rewrite map_lines_closed_form. now intros [= <-].
  - rewrite Hlines, !filter_app.
    destruct (filter_spheres atoms) as [-> _].
    destruct (filter_cylinders atoms (index_pairs (List.length atoms)))
      as [_ ->].
    cbn. now rewrite app_nil_r, length_map.
Qed.

(** X7: when the parser raises, the script raises the same exception;
    when the parser returns, the script prints the scene of the atoms,
    never the message of its other branch: the scene starts with the
    preamble, so it is not empty. The scene printed has one sphere line
    for each line of the text that has at least 4 tokens. *)
Theorem script_prints_scene (py_float : string -> result float)
  (xyz_data : string) :
  (forall e, parse_xyz_data py_float xyz_data = Raise e ->
             script py_float xyz_data = Raise e) /\
  (forall atoms,
      parse_xyz_data py_float xyz_data = Ok atoms ->
      exists text,
        generate_map_content atoms = Ok text /\
        script py_float xyz_data = Ok text /\
        text <> fallback_message /\
        startswith "A 0.2 255,255,255" text = true /\
        List.length (filter is_sphere_line (split_newline text))
        = List.length (filter long_line (split_newline (strip xyz_data)))).
Proof.
  split.
  - intros e H. unfold script. now rewrite H.
  - intros atoms H.
    destruct (generate_map_content_lines atoms) as (text & Htext & _).
    destruct (sphere_line_count atoms text Htext) as [Hstart Hcount].
    exists text. split; [assumption|].
    assert (Hne : (text =? EmptyString) = false)
      by (destruct text; [discriminate Hstart|reflexivity]).
    split; [|split; [|split]].
    + unfold script. rewrite H. cbn [bind]. rewrite Htext. cbn [bind].
      now rewrite Hne.
    + intros ->. discriminate Hstart.
    + assumption.
    + rewrite Hcount.
      rewrite parse_xyz_data_map in H. now apply map_result_length in H.
Qed.

Lemma script_prints_scene_witness :
  script decimal_float "1
He 0 0 0" = Ok "A 0.2 255,255,255
C -50.0,0.0,20.0 0.0,0.0,1.0 70
L -40.0,50.0,0.0 0.6 10,0,255
sp 0.0000,0.0000,0.0000 1.00 255,255,255" /\
  script decimal_float "He 0 zero 0" = Raise ValueError.
Proof.
  split.
  - destruct (proj2 (script_prints_scene decimal_float "1
He 0 0 0") [("He", mkvec 0 0 0)] eq_refl) as (text & Htext & Hs & _).
    rewrite Hs. rewrite <- Htext. reflexivity.
  - apply (proj1 (script_prints_scene decimal_float "He 0 zero 0")).
    reflexivity.
Defined.

(** ** The fields of a line *)

Section Charset.

Variable ok : ascii -> bool.
Hypothesis field_ok : forall c, field_char c = true -> ok c = true.

Lemma made_of_app (s1 s2 : string) :
  made_of ok s1 = true -> made_of ok s2 = true ->
  made_of ok (s1 ++ s2) = true.
Proof.
  unfold made_of. rewrite list_ascii_app, forallb_app. now intros -> ->.
Qed.

Lemma made_of_substring (s : string) :
  made_of ok s = true -> forall n m, made_of ok (substring n m s) = true.
Proof.
  unfold made_of. induction s as [|c s IH]; intros H n m.
  - destruct n, m; reflexivity.
  - simpl in H. apply andb_prop in H. destruct H as [Hc Hs].
    destruct n as [|n]; [destruct m as [|m]|]; simpl.
    + reflexivity.
    + rewrite Hc. apply (IH Hs 0 m).
    + apply (IH Hs n m).
Qed.

Lemma made_of_literal (s : string) :
  made_of field_char s = true -> made_of ok s = true.
Proof.
  unfold made_of. induction (list_ascii_of_string s) as [|c l IH];
    [reflexivity|].
  cbn [forallb]. intros H. apply andb_prop in H. destruct H as [Hc Hl].
  now rewrite (field_ok c Hc), IH.
Qed.

Lemma made_of_uint (d : Decimal.uint) :
  made_of ok (NilEmpty.string_of_uint d) = true.
Proof.
  induction d; [reflexivity|..];
    cbn [NilEmpty.string_of_uint];
    match goal with
    | |- made_of ok (String ?c ?s) = true =>
        change (made_of ok (String c EmptyString ++ s) = true)
    end;
    (apply made_of_app; [now apply made_of_literal|assumption]).
Qed.

Lemma made_of_digits (n : Z) : made_of ok (digits n) = true.
Proof.
  unfold digits, NilZero.string_of_uint.
  destruct (N.to_uint (Z.to_N n)); try apply made_of_uint.
  now apply made_of_literal.
Qed.

Lemma made_of_format_int (n : Z) : made_of ok (format_int n) = true.
Proof.
  unfold format_int. destruct (n <? 0)%Z; [|apply made_of_digits].
  apply made_of_app; [now apply made_of_literal|apply made_of_digits].
Qed.

Lemma made_of_zeros (k : nat) : made_of ok (zeros k) = true.
Proof.
  induction k as [|k IH]; [reflexivity|].
  change (made_of ok ("0" ++ zeros k) = true).
  apply made_of_app; [now apply made_of_literal|assumption].
Qed.

Lemma made_of_fixed_point (p : nat) (n : Z) :
  made_of ok (fixed_point p n) = true.
Proof.
  assert (H : made_of ok
                (zeros (S p - String.length (digits n)) ++ digits n) = true)
    by (apply made_of_app; [apply made_of_zeros|apply made_of_digits]).
  unfold fixed_point. destruct p; [assumption|].
  apply made_of_app; [now apply made_of_substring|].
  apply made_of_app; [now apply made_of_literal|now apply made_of_substring].
Qed.

Lemma made_of_format_f (p : nat) (x : float) :
  made_of ok (format_f p x) = true.
Proof.
  unfold format_f. destruct (Prim2SF x) as [s|s| |s m e];
    try destruct s; try (now apply made_of_literal);
    (apply made_of_app;
     [now apply made_of_literal|apply made_of_fixed_point]).
Qed.

(** Three numbers between commas *)
Lemma made_of_triple (a b c : string) :
  made_of ok a = true -> made_of ok b = true -> made_of ok c = true ->
  made_of ok (a ++ "," ++ b ++ "," ++ c) = true.
Proof.
  intros Ha Hb Hc.
  repeat (apply made_of_app; try assumption); now apply made_of_literal.
Qed.

End Charset.

Lemma field_char_not_space (c : ascii) :
  field_char c = true -> negb (isspace c) = true.
Proof.
  unfold field_char. intros H. apply existsb_exists in H.
  destruct H as (d & Hd & E). apply Ascii.eqb_eq in E. subst d.
  simpl in Hd. repeat (destruct Hd as [<-|Hd]; [reflexivity|]).
  destruct Hd.
Qed.

Lemma token_intro (s : string) :
  s <> EmptyString -> made_of (fun c => negb (isspace c)) s = true ->
  token s = true.
Proof.
  intros Hne H. unfold token. unfold made_of in H. rewrite H, andb_true_r.
  destruct s; [now elim Hne|reflexivity].
Qed.

Lemma string_length_app (s1 s2 : string) :
  String.length (s1 ++ s2) = String.length s1 + String.length s2.
Proof. induction s1; simpl; congruence. Qed.

Lemma triple_not_empty (a b c : string) :
  a ++ "," ++ b ++ "," ++ c <> EmptyString.
Proof.
  intros H. apply (f_equal String.length) in H.
  rewrite !string_length_app in H. simpl in H. lia.
Qed.

Lemma token_triple (a b c : string) :
  made_of (fun c => negb (isspace c)) a = true ->
  made_of (fun c => negb (isspace c)) b = true ->
  made_of (fun c => negb (isspace c)) c = true ->
  token (a ++ "," ++ b ++ "," ++ c) = true.
Proof.
  intros Ha Hb Hc. apply token_intro; [apply triple_not_empty|].
  now apply made_of_triple; [apply field_char_not_space|..].
Qed.

Lemma format_f_token (p : nat) (x : float) : token (format_f (S p) x) = true.
Proof.
  apply token_intro;
    [|apply made_of_format_f, field_char_not_space].
  unfold format_f, fixed_point.
  destruct (Prim2SF x) as [s|s| |s m e]; try destruct s; try discriminate;
    intros H; apply (f_equal String.length) in H;
    rewrite ?string_length_app in H; simpl in H; lia.
Qed.

Lemma string_app_assoc (s1 s2 s3 : string) :
  (s1 ++ s2) ++ s3 = s1 ++ s2 ++ s3.
Proof. induction s1; simpl; congruence. Qed.

Lemma split_run (l : list ascii) :
  forallb (fun c => negb (isspace c)) l = true ->
  forall cur rest,
    split_ws_aux cur (app l rest) = split_ws_aux (app (rev l) cur) rest.
Proof.
  induction l as [|c l IH]; intros H cur rest; [reflexivity|].
  cbn [forallb] in H. apply andb_prop in H. destruct H as [Hc Hl].
  cbn [app split_ws_aux]. apply negb_true_iff in Hc. rewrite Hc.
  rewrite (IH Hl). cbn [rev]. now rewrite <- app_assoc.
Qed.

Lemma token_chars (s : string) :
  token s = true ->
  forallb (fun c => negb (isspace c)) (list_ascii_of_string s) = true /\
  exists c l, rev (list_ascii_of_string s) = c :: l.
Proof.
  unfold token. intros H. apply andb_prop in H. destruct H as [Hne H].
  split; [assumption|].
  destruct s as [|c s]; [discriminate Hne|].
  cbn [list_ascii_of_string rev].
  destruct (rev (list_ascii_of_string s)) as [|d l]; simpl; eauto.
Qed.

(** Joining tokens with single spaces and splitting gives the tokens. *)
Lemma split_join (fields : list string) :
  Forall (fun f => token f = true) fields ->
  split (join " " fields) = fields.
Proof.
  unfold split. induction 1 as [|x fields Hx _ IH]; [reflexivity|].
  apply token_chars in Hx. destruct Hx as (Hx & c & l & Hrev).
  destruct fields as [|y fields].
  - cbn [join]. rewrite <- (app_nil_r (list_ascii_of_string x)).
    rewrite (split_run _ Hx), app_nil_r. cbn [split_ws_aux].
    rewrite Hrev, <- Hrev, rev_involutive.
    now rewrite string_of_list_ascii_of_string.
  - change (join " " (x :: y :: fields))
      with (x ++ String " " (join " " (y :: fields))).
    rewrite list_ascii_app. cbn [list_ascii_of_string].
    rewrite (split_run _ Hx), app_nil_r. cbn [split_ws_aux].
    change (isspace " ") with true. cbv iota.
    rewrite Hrev, <- Hrev, rev_involutive, IH.
    now rewrite string_of_list_ascii_of_string.
Qed.

Lemma sphere_line_fields (a : atom) :
  exists position rgb,
    split (sphere_line a) = ["sp"; position; "1.00"; rgb] /\
    join " " ["sp"; position; "1.00"; rgb] = sphere_line a.
Proof.
  unfold sphere_line. destruct (sphere_color (fst a)) as [[r g] b].
  set (position := format_f 4 (vx (snd a)) ++ "," ++ format_f 4 (vy (snd a))
                   ++ "," ++ format_f 4 (vz (snd a))).
  set (rgb := format_int r ++ "," ++ format_int g ++ "," ++ format_int b).
  exists position, rgb.
  assert (E : join " " ["sp"; position; "1.00"; rgb]
              = "sp " ++ format_f 4 (vx (snd a)) ++ "," ++
                format_f 4 (vy (snd a)) ++ "," ++ format_f 4 (vz (snd a))
                ++ " 1.00 " ++ rgb).
  { unfold position. cbn [join]. now rewrite !string_app_assoc. }
  split; [|exact E]. rewrite <- E. apply split_join.
  repeat constructor.
  - apply token_triple;
      apply made_of_format_f, field_char_not_space.
  - apply token_triple;
      apply made_of_format_int, field_char_not_space.
Qed.

Lemma cylinder_text_fields (c d : vec3) (l : float) :
  exists center direction,
    split (cylinder_text c d l)
    = ["cy"; center; direction; "0.40"; format_f 2 l; "200,200,200"] /\
    join " " ["cy"; center; direction; "0.40"; format_f 2 l; "200,200,200"]
    = cylinder_text c d l.
Proof.
  unfold cylinder_text.
  set (center := format_f 4 (vx c) ++ "," ++ format_f 4 (vy c)
                 ++ "," ++ format_f 4 (vz c)).
  set (direction := format_f 4 (vx d) ++ "," ++ format_f 4 (vy d)
                    ++ "," ++ format_f 4 (vz d)).
  exists center, direction.
  assert (E : join " " ["cy"; center; direction; "0.40"; format_f 2 l;
                        "200,200,200"]
              = "cy " ++ format_f 4 (vx c) ++ "," ++ format_f 4 (vy c)
                ++ "," ++ format_f 4 (vz c) ++ " "
                ++ format_f 4 (vx d) ++ "," ++ format_f 4 (vy d)
                ++ "," ++ format_f 4 (vz d) ++ " 0.40 " ++ format_f 2 l
                ++ " 200,200,200").
  { unfold center, direction. cbn [join]. now rewrite !string_app_assoc. }
  split; [|exact E]. rewrite <- E. apply split_join.
  repeat constructor.
  - apply token_triple; apply made_of_format_f, field_char_not_space.
  - apply token_triple; apply made_of_format_f, field_char_not_space.
  - apply format_f_token.
Qed.

(** X8: every line of the text returned after the three of the preamble
    is made of fields separated by single spaces, none of them empty
    whatever the numbers are: 4 fields after "sp" included for a sphere,
    6 after "cy" included for a cylinder; splitting the line at
    whitespace gives these fields back. *)
Theorem lines_split_into_fields (atoms : list atom) :
  exists text,
    generate_map_content atoms = Ok text /\
    Forall
      (fun line =>
         join " " (split line) = line /\
         ((hd EmptyString (split line) = "sp" /\
           List.length (split line) = 4) \/
          (hd EmptyString (split line) = "cy" /\
           List.length (split line) = 6)))
      (skipn 3 (split_newline text)).
Proof.
  destruct (generate_map_content_lines atoms) as (text & Htext & Hlines).
  exists text. split; [assumption|]. rewrite Hlines.
  change (skipn 3 (app preamble ?l)) with l.
  apply Forall_app. split; apply Forall_forall; intros line Hin.
  - apply in_map_iff in Hin. destruct Hin as (a & <- & _).
    destruct (sphere_line_fields a) as (position & rgb & Hs & Hj).
    rewrite Hs. split; [exact Hj|]. left. split; reflexivity.
  - apply in_flat_map in Hin. destruct Hin as (ij & _ & Hin).
    apply in_pair_lines in Hin. destruct Hin as (a & b & _ & _ & _ & ->).
    unfold cylinder_line.
    destruct (cylinder_text_fields (midpoint (snd a) (snd b))
                (normalize (vsub (snd b) (snd a)))
                (calculate_distance (snd a) (snd b)))
      as (center & direction & Hs & Hj).
    rewrite Hs. split; [exact Hj|]. right. split; reflexivity.
Qed.

(** ** Whitespace around the text *)

Lemma lstrip_blank_app (ws l : list ascii) :
  forallb isspace ws = true -> lstrip (app ws l) = lstrip l.
Proof.
  induction ws as [|c ws IH]; [reflexivity|].
  cbn [forallb app lstrip]. intros H. apply andb_prop in H.
  destruct H as [-> H]. now apply IH.
Qed.

Lemma lstrip_app (l r : list ascii) :
  lstrip (app l r)
  = match lstrip l with
    | [] => lstrip r
    | _ => app (lstrip l) r
    end.
Proof.
  induction l as [|c l IH]; [reflexivity|].
  cbn [app lstrip]. now destruct (isspace c).
Qed.

Lemma forallb_rev {A : Type} (f : A -> bool) (l : list A) :
  forallb f l = true -> forallb f (rev l) = true.
Proof.
  rewrite !forallb_forall. intros H x Hx. apply H. now apply in_rev.
Qed.

Lemma strip_padded (ws1 s ws2 : string) :
  blank ws1 = true -> blank ws2 = true ->
  strip (ws1 ++ s ++ ws2) = strip s.
Proof.
  unfold blank, strip. intros H1 H2. f_equal. f_equal.
  rewrite !list_ascii_app, (lstrip_blank_app _ _ H1), lstrip_app.
  destruct (lstrip (list_ascii_of_string s)) as [|c l] eqn:E.
  - now rewrite (lstrip_blank _ H2).
  - rewrite rev_app_distr. apply lstrip_blank_app. now apply forallb_rev.
Qed.

(** X9: whitespace put before and after the text, blank lines among it,
    changes nothing of what the parser returns or raises. *)
Theorem parse_padded_text (py_float : string -> result float)
  (ws1 xyz_data ws2 : string) :
  blank ws1 = true -> blank ws2 = true ->
  parse_xyz_data py_float (ws1 ++ xyz_data ++ ws2)
  = parse_xyz_data py_float xyz_data.
Proof.
  intros H1 H2. unfold parse_xyz_data. now rewrite strip_padded.
Qed.

Lemma parse_padded_text_witness :
  parse_xyz_data decimal_float ("
  " ++ "C 1 2 3" ++ "
")
  = Ok [("C", mkvec 1 2 3)].
Proof.
  rewrite (parse_padded_text decimal_float "
  " "C 1 2 3" "
" eq_refl eq_refl).
  reflexivity.
Defined.

(** ** The bonds and the order of the atoms *)

Lemma index_pairs_succ (n : nat) :
  index_pairs (S n)
  = app (map (pair 0) (seq 1 n))
      (map (fun ij => (S (fst ij), S (snd ij))) (index_pairs n)).
Proof.
  unfold index_pairs, range.
  replace (S n - 0) with (S n) by lia. replace (n - 0) with n by lia.
  cbn [seq flat_map].
  replace (S n - (0 + 1)) with n by lia. cbn [Nat.add]. f_equal.
  rewrite <- seq_shift, flat_map_map.
  rewrite !flat_map_concat_map, concat_map, map_map. f_equal.
  apply map_ext. intros i. rewrite map_map. cbn [fst snd].
  replace (S n - (S i + 1)) with (n - (i + 1)) by lia.
  replace (S i + 1) with (S (i + 1)) by lia.
  now rewrite <- seq_shift, map_map.
Qed.

Lemma filter_by_index {A : Type} (f : A -> bool) (l : list A) (k : nat) :
  List.length
    (filter (fun j => match nth_error l (j - k) with
                      | Some b => f b
                      | None => false
                      end) (seq k (List.length l)))
  = List.length (filter f l).
Proof.
  revert k. induction l as [|b l IH]; intros k; [reflexivity|].
  cbn [List.length seq filter]. rewrite Nat.sub_diag. cbn [nth_error].
  assert (E : List.length
                (filter (fun j => match nth_error (b :: l) (j - k) with
                                  | Some b => f b
                                  | None => false
                                  end) (seq (S k) (List.length l)))
              = List.length (filter f l)).
  { rewrite <- (IH (S k)). f_equal. apply filter_ext_in.
    intros j Hj. apply in_seq in Hj.
    replace (j - k) with (S (j - S k)) by lia. reflexivity. }
  destruct (f b); cbn [List.length]; now rewrite E.
Qed.

Lemma filter_map_length {A B : Type} (p : B -> bool) (g : A -> B)
  (l : list A) :
  List.length (filter p (map g l))
  = List.length (filter (fun x => p (g x)) l).
Proof.
  induction l as [|x l IH]; [reflexivity|].
  cbn [map filter]. destruct (p (g x)); cbn [List.length]; now rewrite IH.
Qed.

Lemma bonded_pairs_count (atoms : list atom) :
  List.length (filter (bonded_at atoms) (index_pairs (List.length atoms)))
  = bond_count atoms.
Proof.
  induction atoms as [|a atoms IH]; [reflexivity|].
  cbn [List.length bond_count].
  rewrite index_pairs_succ, filter_app, length_app, !filter_map_length.
  f_equal.
  - rewrite <- (filter_by_index (bonded a) atoms 1). f_equal.
    apply filter_ext_in. intros j Hj. apply in_seq in Hj.
    unfold bonded_at. cbn [fst snd nth_error].
    destruct j as [|j]; [lia|]. cbn [nth_error Nat.sub].
    now rewrite Nat.sub_0_r.
  - rewrite <- IH. f_equal.
Qed.

Lemma filter_length_perm {A : Type} (f : A -> bool) (l l' : list A) :
  Permutation l l' -> List.length (filter f l) = List.length (filter f l').
Proof.
  induction 1 as [|x l l' _ IH|x y l|l l' l'' _ IH1 _ IH2];
    cbn [filter]; try reflexivity.
  - destruct (f x); cbn [List.length]; now rewrite IH.
  - now destruct (f x), (f y).
  - now rewrite IH1.
Qed.

Lemma bond_count_perm (atoms atoms' : list atom) :
  Permutation atoms atoms' -> bond_count atoms = bond_count atoms'.
Proof.
  induction 1 as [|x l l' Hl IH|x y l|l l' l'' _ IH1 _ IH2];
    cbn [bond_count]; try reflexivity.
  - now rewrite (filter_length_perm (bonded x) l l' Hl), IH.
  - cbn [filter]. rewrite (bonded_sym y x).
    destruct (bonded x y); cbn [List.length]; lia.
  - now rewrite IH1.
Qed.

Lemma cylinder_line_count (atoms : list atom) (text : string) :
  generate_map_content atoms = Ok text ->
  List.length (filter is_cylinder_line (split_newline text))
  = bond_count atoms.
Proof.
  intros H.
  destruct (generate_map_content_lines atoms) as (text' & Htext & Hlines).
  assert (text' = text) by congruence. subst text'.
  rewrite Hlines, !filter_app.
  destruct (filter_spheres atoms) as [_ ->].
  destruct (filter_cylinders atoms (index_pairs (List.length atoms)))
    as [-> _].
  cbn [preamble filter is_cylinder_line startswith Ascii.eqb Bool.eqb
       andb app].
  now rewrite pair_lines_length, bonded_pairs_count.
Qed.

(** X10: the number of cylinder lines is the number of bonds counted atom
    by atom, each with the atoms after it, and it does not depend on the
    order of the atoms: two lists that are permutations of each other give
    texts with the same number of cylinder lines and of sphere lines. *)
Theorem bonds_do_not_depend_on_order (atoms atoms' : list atom) :
  Permutation atoms atoms' ->
  exists text text',
    generate_map_content atoms = Ok text /\
    generate_map_content atoms' = Ok text' /\
    List.length (filter is_cylinder_line (split_newline text))
    = bond_count atoms /\
    List.length (filter is_cylinder_line (split_newline text'))
    = List.length (filter is_cylinder_line (split_newline text)) /\
    List.length (filter is_sphere_line (split_newline text'))
    = List.length (filter is_sphere_line (split_newline text)).
Proof.
  intros H.
  destruct (generate_map_content_lines atoms) as (text & Htext & _).
  destruct (generate_map_content_lines atoms') as (text' & Htext' & _).
  exists text, text'. split; [assumption|]. split; [assumption|].
  rewrite (cylinder_line_count atoms text Htext).
  rewrite (cylinder_line_count atoms' text' Htext').
  rewrite (proj2 (sphere_line_count atoms text Htext)).
  rewrite (proj2 (sphere_line_count atoms' text' Htext')).
  repeat split.
  - symmetry. now apply bond_count_perm.
  - symmetry. now apply Permutation_length.
Qed.

Lemma bonds_do_not_depend_on_order_witness :
  exists text text',
    generate_map_content [("O", mkvec 0 0 0); ("H", mkvec 1 0 0);
                          ("H", mkvec 0 1 0)] = Ok text /\
    generate_map_content [("H", mkvec 1 0 0); ("O", mkvec 0 0 0);
                          ("H", mkvec 0 1 0)] = Ok text' /\
    List.length (filter is_cylinder_line (split_newline text)) = 3 /\
    List.length (filter is_cylinder_line (split_newline text')) = 3.
Proof.
  destruct (bonds_do_not_depend_on_order
              [("O", mkvec 0 0 0); ("H", mkvec 1 0 0); ("H", mkvec 0 1 0)]
              [("H", mkvec 1 0 0); ("O", mkvec 0 0 0); ("H", mkvec 0 1 0)]
              (perm_swap _ _ _))
    as (text & text' & Ht & Ht' & Hc & Hc' & _).
  exists text, text'. split; [exact Ht|]. split; [exact Ht'|].
  split.
  - rewrite Hc. vm_compute. reflexivity.
  - rewrite Hc', Hc. vm_compute. reflexivity.
Defined.

(** * Scenarios *)

(** Two carbons at distance 1: one cylinder. *)
Example two_carbons :
  generate_map_content [("C", mkvec 0 0 0); ("C", mkvec 1 0 0)] =
  Ok "A 0.2 255,255,255
C -50.0,0.0,20.0 0.0,0.0,1.0 70
L -40.0,50.0,0.0 0.6 10,0,255
sp 0.0000,0.0000,0.0000 1.00 128,128,128
sp 1.0000,0.0000,0.0000 1.00 128,128,128
cy 0.5000,0.0000,0.0000 1.0000,0.0000,0.0000 0.40 1.00 200,200,200".
Proof. vm_compute. reflexivity. Qed.

(** Phosphorus and oxygen at distance 1.7, in both orders: bonded by the
    threshold 1.8; two oxygens at the same distance are not. *)
Example phosphorus_oxygen :
  pair_lines [("P", mkvec 0 0 0); ("O", mkvec 1.7 0 0)] (0, 1)
  = ["cy 0.8500,0.0000,0.0000 1.0000,0.0000,0.0000 0.40 1.70 200,200,200"]
  /\
  pair_lines [("O", mkvec 0 0 0); ("P", mkvec 1.7 0 0)] (0, 1)
  = ["cy 0.8500,0.0000,0.0000 1.0000,0.0000,0.0000 0.40 1.70 200,200,200"]
  /\
  pair_lines [("O", mkvec 0 0 0); ("O", mkvec 1.7 0 0)] (0, 1) = [].
Proof. vm_compute. repeat split; reflexivity. Qed.

(** One atom: the preamble and one sphere. *)
Example single_atom :
  map_lines [("N", mkvec 1.5 (-2) 0.25)] =
  Ok (app preamble ["sp 1.5000,-2.0000,0.2500 1.00 0,0,255"]).
Proof. vm_compute. reflexivity. Qed.

(** Two atoms at the distance of their threshold: no cylinder. *)
Example at_the_threshold :
  (calculate_distance (mkvec 0 0 0) (mkvec 1.6 0 0) =? 1.6)%float = true /\
  map_lines [("C", mkvec 0 0 0); ("C", mkvec 1.6 0 0)] =
  Ok (app preamble ["sp 0.0000,0.0000,0.0000 1.00 128,128,128";
                    "sp 1.6000,0.0000,0.0000 1.00 128,128,128"]).
Proof. vm_compute. split; reflexivity. Qed.

(** A vector whose squares underflow has the computed norm 0 and is
    returned as it is. *)
Example normalize_underflow :
  (linalg_norm (mkvec 1e-200 0 0) =? 0)%float = true /\
  normalize (mkvec 1e-200 0 0) = mkvec 1e-200 0 0.
Proof. vm_compute. split; reflexivity. Qed.

(** From the text to the scene, with decimal numbers *)
Example text_to_scene :
  (atoms <- parse_xyz_data decimal_float "
C  -0.95200  0.65960  -0.65320
H  -1.72680  1.19660  -1.18500  first hydrogen
16
" ;; generate_map_content atoms) =
  Ok "A 0.2 255,255,255
C -50.0,0.0,20.0 0.0,0.0,1.0 70
L -40.0,50.0,0.0 0.6 10,0,255
sp -0.9520,0.6596,-0.6532 1.00 128,128,128
sp -1.7268,1.1966,-1.1850 1.00 255,255,255
cy -1.3394,0.9281,-0.9191 -0.7158,0.4961,-0.4913 0.40 1.08 200,200,200".
Proof. vm_compute. reflexivity. Qed.
